(** * frontend/scripts/gen-api.py: the OpenAPI client generator wrapper

    A shallow embedding of the script and of the parts of the Python
    runtime it touches: [str.split] and [str.join], the POSIX flavour of
    [pathlib] (parsing, [parent], the [/] operator, [str]), [print] and
    [os.system].

    The effects are modelled twice.  [Runtime] is the plain run: standard
    output takes the line at the call and nothing fails.  [Process] is
    the run in its process: how the interpreter forms [__file__], the
    buffering and the failures of [sys.stdout], the standard output the
    subordinate shares with the script, the flush and the status at the
    exit.  [plain_run_is_a_write_through_run] relates the two.

    Strings are byte strings, as POSIX file names are; the separator is
    the single byte "/" and never occurs inside a multi-byte character.
    The script runs under [#!/usr/bin/env python3], so the POSIX flavour
    of pathlib is the one modelled (no drive). *)

From Stdlib Require Import String Ascii List ZArith Bool Lia.
Import ListNotations.
Open Scope string_scope.
Open Scope list_scope.

(** ** Python's [str] primitives *)

Module PyStr.

(** [s.split(sep)] for a one-character separator: never the empty list,
    a separator at either end or doubled gives empty pieces. *)
Fixpoint split (sep : ascii) (s : string) : list string :=
  match s with
  | EmptyString => [EmptyString]
  | String c rest =>
      if Ascii.eqb c sep then EmptyString :: split sep rest
      else match split sep rest with
           | [] => [String c EmptyString]
           | w :: ws => String c w :: ws
           end
  end.

(** [sep.join(parts)]. *)
Definition join (sep : string) (parts : list string) : string :=
  String.concat sep parts.

(** The characters of a string, and [c in s] for a character. *)
Definition chars (s : string) : list ascii := list_ascii_of_string s.

Definition contains (c : ascii) (s : string) : bool :=
  existsb (Ascii.eqb c) (chars s).

End PyStr.

(** ** pathlib, POSIX flavour *)

Module pathlib.

Definition sep : ascii := "/"%char.

(** A pure path once parsed: the root ("", "/" or "//") and the
    components after it.  The drive is always empty on POSIX. *)
Record PurePath : Type := mkPath { root : string; tail : list string }.

(** [posixpath.splitroot]: one leading slash or three and more make the
    root "/", exactly two make the root "//". *)
Definition splitroot (p : string) : string * string :=
  match p with
  | String "/" (String "/" (String "/" r)) => ("/", String "/" (String "/" r))
  | String "/" (String "/" r) => ("//", r)
  | String "/" r => ("/", r)
  | _ => ("", p)
  end.

(** A piece of the split survives when it is neither empty nor ".". *)
Definition keep (x : string) : bool :=
  negb (String.eqb x "") && negb (String.eqb x ".").

(** [_parse_path]: split the root off, split the rest at "/", drop the
    empty and the "." pieces (".." stays). *)
Definition parse_path (path : string) : PurePath :=
  let (rt, rel) := splitroot path in
  mkPath rt (filter keep (PyStr.split sep rel)).

(** [pathlib.Path(s)]. *)
Definition Path (s : string) : PurePath := parse_path s.

(** [_format_parsed_parts]: the root followed by the components joined
    by "/". *)
Definition format_parsed_parts (rt : string) (tl : list string) : string :=
  rt ++ PyStr.join "/" tl.

(** [str(p)]: the formatted parts, or "." for the empty path. *)
Definition str (p : PurePath) : string :=
  let s := format_parsed_parts (root p) (tail p) in
  if String.eqb s "" then "." else s.

(** [p.parent]: the path without its last component; a path with no
    component (the root, or ".") is its own parent. *)
Definition parent (p : PurePath) : PurePath :=
  match tail p with
  | [] => p
  | _ :: _ => mkPath (root p) (removelast (tail p))
  end.

(** [p / key]: a rooted key replaces the path, any other key has its
    components appended. *)
Definition truediv (p : PurePath) (key : string) : PurePath :=
  let k := parse_path key in
  if String.eqb (root k) "" then mkPath (root p) (tail p ++ tail k)
  else k.

(** A well-formed component of a file name: not empty, not ".", and
    without a separator inside. *)
Definition component (x : string) : bool :=
  keep x && negb (PyStr.contains sep x).

(** The invariant of every path pathlib builds: no component is empty
    or ".". *)
Definition parsed (p : PurePath) : bool := forallb keep (tail p).

End pathlib.

Declare Scope path_scope.
Delimit Scope path_scope with path.
Notation "p / k" := (pathlib.truediv p k) : path_scope.

(** ** The process environment and the effects of a run *)

Module Runtime.

(** How a child process ended, in the plain run ([Process.ending] has
    the core flag). *)
Inductive termination : Type :=
| Exited (code : Z)
| Signaled (sig : Z).

(** The wait status [os.system] returns on POSIX, for an exit code
    below 256 and a signal without core dump: the exit code in the high
    byte, or the signal number.  ([Process.wait_status] is the full
    encoding; the script drops the value.) *)
Definition wait_status (t : termination) : Z :=
  match t with
  | Exited code => Z.shiftl code 8
  | Signaled sig => sig
  end.

(** What the script is started in, in the plain run.  [dunder_file] is
    the value the interpreter has bound to [__file__] (how it forms it
    from the working directory is [Launch.abspath]); [subordinate] says
    how [/bin/sh -c cmd] ends when started in a working directory with
    an environment (a real shell, or a mock). *)
Record Env : Type := mkEnv {
  dunder_file : string;
  cwd : string;
  argv : list string;
  environ : list (string * string);
  subordinate : string -> list (string * string) -> string -> termination
}.

(** Kinds of file system access a process can make. *)
Inductive fs_op : Type := FsOpen | FsStat | FsRead | FsWrite | FsMkdir.

(** The effects a run can have on the outside. *)
Inductive event : Type :=
| StdoutWrite (text : string)
| ShellSpawn (cmd : string)
| ShellReaped (status : Z)
| FsAccess (op : fs_op) (path : string).

Inductive exn : Type :=
| PyException (name : string).

Inductive result (A : Type) : Type :=
| Returned (a : A)
| Raised (e : exn).
Arguments Returned {A} a.
Arguments Raised {A} e.

(** A Python computation: reads the environment, extends the trace of
    effects (oldest first), returns or raises. *)
Definition Py (A : Type) : Type := Env -> list event -> result A * list event.

Definition ret {A} (a : A) : Py A := fun _ tr => (Returned a, tr).

Definition bind {A B} (m : Py A) (k : A -> Py B) : Py B :=
  fun env tr =>
    match m env tr with
    | (Returned a, tr') => k a env tr'
    | (Raised e, tr') => (Raised e, tr')
    end.

Definition emit (e : event) : Py unit := fun _ tr => (Returned tt, tr ++ [e]).

Definition ask : Py Env := fun env tr => (Returned env, tr).

(** The newline as a string. *)
Definition newline : string := String "010"%char EmptyString.

(** [print(s)] in the plain run: one write of [s] and a newline, taken
    by standard output at the call.  Buffering, a refused write and an
    encoder that refuses the text are in [Process.print]. *)
Definition print (s : string) : Py unit := emit (StdoutWrite (s ++ newline)).

(** [os.system(cmd)] in the plain run: starts [/bin/sh -c cmd] with the
    caller's working directory and environment, waits for it, returns
    its wait status.  What the child writes on the shared standard
    output is in [Process.os_system]. *)
Definition os_system (cmd : string) : Py Z :=
  bind ask (fun env =>
  let st := wait_status (subordinate env (cwd env) (environ env) cmd) in
  bind (emit (ShellSpawn cmd)) (fun _ =>
  bind (emit (ShellReaped st)) (fun _ =>
  ret st))).

(** The module global [__file__]. *)
Definition __file__ : Py string := bind ask (fun env => ret (dunder_file env)).

(** The exit status of the interpreter once the top-level code is over,
    before the flush at the exit ([Process.finalize]): 0 when the code
    ran to its end, 1 on an exception nobody caught. *)
Definition exit_status {A} (r : result A) : Z :=
  match r with
  | Returned _ => 0%Z
  | Raised _ => 1%Z
  end.


Fixpoint printed (tr : list event) : list string :=
  match tr with
  | [] => []
  | StdoutWrite s :: tr' => s :: printed tr'
  | _ :: tr' => printed tr'
  end.

Fixpoint spawned (tr : list event) : list string :=
  match tr with
  | [] => []
  | ShellSpawn c :: tr' => c :: spawned tr'
  | _ :: tr' => spawned tr'
  end.

End Runtime.

Declare Scope py_scope.
Delimit Scope py_scope with py.
Notation "x <- m ;; k" := (Runtime.bind m (fun x => k))
  (at level 61, m at next level, right associativity) : py_scope.
Notation "m ;;; k" := (Runtime.bind m (fun _ => k))
  (at level 61, right associativity) : py_scope.

(** ** The script *)

Module GenApi.
Import pathlib Runtime.
Local Open Scope path_scope.
Local Open Scope py_scope.

(** The locals of [main], as functions of the value of [__file__]. *)
Definition script_file (file : string) : PurePath := Path file.

Definition project_root (file : string) : PurePath :=
  parent (parent (script_file file)).

Definition spec (file : string) : PurePath :=
  project_root file / "openapi.json".

Definition generated (file : string) : PurePath :=
  project_root file / "src" / "api" / "generated".

Definition config (file : string) : PurePath :=
  generated file / "config.json".

(** The f-string: every [{p}] is [str(p)]. *)
Definition command (file : string) : string :=
  "npx @openapitools/openapi-generator-cli generate -g typescript-fetch -i "
    ++ str (spec file) ++ " -o " ++ str (generated file)
    ++ " -c " ++ str (config file).

(** [main()]: the value of [os.system] is dropped. *)
Definition main : Py unit :=
  file <- __file__ ;;
  print (command file) ;;;
  _ <- os_system (command file) ;;
  ret tt.

(** Running the file as a script: [main()] from an empty trace, then the
    interpreter's exit status. *)
Definition run (env : Env) : result unit * list event := main env [].

Definition trace (env : Env) : list event := snd (run env).

Definition script_exit (env : Env) : Z := exit_status (fst (run env)).

(** What the subordinate shell answers to the command of this run. *)
Definition shell_status (env : Env) : Z :=
  wait_status
    (subordinate env (cwd env) (environ env) (command (dunder_file env))).

End GenApi.

(** ** The command line the generator expects *)

Module Shape.

Definition generator_cli_entry : string :=
  "npx @openapitools/openapi-generator-cli".

Definition action : string := "generate".

Definition target : string := "typescript-fetch".

(** [<generator-cli-entry> generate -g typescript-fetch -i <spec-path>
    -o <output-dir> -c <config-path>]. *)
Definition command_line (spec_path output_dir config_path : string)
    : string :=
  generator_cli_entry ++ " " ++ action ++ " -g " ++ target
    ++ " -i " ++ spec_path ++ " -o " ++ output_dir
    ++ " -c " ++ config_path.

End Shape.

Import pathlib Runtime GenApi.


(** ** Shapes of paths and of file names *)

Module PathShape.
Import pathlib.

(** The roots the POSIX flavour knows. *)
Definition valid_root (rt : string) : bool :=
  String.eqb rt "" || String.eqb rt "/" || String.eqb rt "//".

(** A path in normal form: a POSIX root, and components that are
    neither empty nor "." nor hold a separator. *)
Definition normal (p : PurePath) : bool :=
  valid_root (root p) && forallb component (tail p).

(** [posixpath.isabs]: the name starts with "/". *)
Definition isabs (s : string) : bool := String.prefix "/" s.

(** A character that occurs nowhere in a list of strings. *)
Definition absent (d : ascii) (l : list string) : bool :=
  forallb (fun x => negb (PyStr.contains d x)) l.

End PathShape.

(** ** How the interpreter starts the script *)

Module Launch.
Import pathlib PathShape.

(** The name the interpreter binds to [__file__] for the script it was
    given (CPython 3.9 and later): an absolute path is taken as it is, a
    relative one is put after the working directory and a "/".  Nothing
    is normalised. *)
Definition abspath (cwd path : string) : string :=
  if isabs path then path else cwd ++ "/" ++ path.

(** The directory entries the kernel goes through for an absolute name
    when no component is a symbolic link: empty pieces and "." are
    skipped, ".." goes one entry back and stays at the root. *)
Fixpoint walk (back : list string) (pieces : list string) : list string :=
  match pieces with
  | [] => rev back
  | p :: rest =>
      if String.eqb p ".." then walk (List.tl back) rest
      else if keep p then walk (p :: back) rest
      else walk back rest
  end.

(** The file a name stands for. *)
Definition location (name : string) : list string :=
  walk [] (PyStr.split sep name).

(** A path that goes up nowhere: no component is "..". *)
Definition downward (p : PurePath) : bool :=
  forallb (fun x => negb (String.eqb x "..")) (tail p).

End Launch.

(** ** The process: standard output, the subordinate, the exit *)

Module Process.
Import Runtime.

(** How a child ended: by [exit], or by a signal, with or without a core
    dump. *)
Inductive ending : Type :=
| Exit (code : Z)
| Signal (sig : Z) (core : bool).

(** The wait status: the low byte of the exit code in the second byte,
    or the signal number with the core flag. *)
Definition wait_status (e : ending) : Z :=
  match e with
  | Exit code => Z.shiftl (Z.land code 255) 8
  | Signal sig core => Z.lor (Z.land sig 127) (if core then 128 else 0)%Z
  end.

(** What a subordinate did: how it ended, what it wrote on the standard
    output it shares with the script, and the state it left the far end
    of that output in. *)
Record child : Type := mkChild {
  ended : ending;
  wrote : list string;
  far_after : nat
}.

(** What [sys.stdout] does with a line: the pieces it hands to the
    descriptor during the call, in order, the part it holds until the
    flush at exit, and whether a piece whose write failed stays in the
    buffer. *)
Record plan : Type := mkPlan {
  now : list string;
  held : string;
  keeps_failed : bool
}.

(** What the script is started in.  The interpreter is given [w_script]
    in the directory [w_cwd].  [w_stream] is the stream the interpreter
    sets up from its options and from the environment (buffering,
    encoding, error handler): for a text, its plan for the line, or
    nothing when the encoder refuses the text.  The far end of
    descriptor 1 is a machine: [w_accept] takes a write in a state and
    gives the next state, or fails.  [w_subordinate] is [/bin/sh -c cmd]
    in a directory, with an environment, started on a far end in a
    given state; it gives nothing when no process can be created. *)
Record World : Type := mkWorld {
  w_cwd : string;
  w_script : string;
  w_argv : list string;
  w_environ : list (string * string);
  w_stream : list (string * string) -> string -> option plan;
  w_far : nat;
  w_accept : nat -> string -> option nat;
  w_subordinate :
    string -> list (string * string) -> string -> nat -> option child
}.

(** The calls the script makes. *)
Inductive call : Type :=
| CallPrint (text : string)
| CallSystem (cmd : string).

(** What happens outside: writes of the script on descriptor 1 that
    went through or were refused, the shell started or not started for
    want of a process, what the child wrote, the shell waited for, a
    traceback or a warning of the interpreter on standard error. *)
Inductive effect : Type :=
| Wrote (text : string)
| Refused (text : string)
| Spawned (cmd : string)
| NotSpawned (cmd : string)
| ChildWrote (text : string)
| Reaped (status : Z)
| Complained (e : exn).

Definition UnicodeEncodeError : exn := PyException "UnicodeEncodeError".
Definition OSError : exn := PyException "OSError".

(** The state of a run: what the stream holds, the far end, the calls
    and the effects so far (oldest first). *)
Record state : Type := mkState {
  pending : string;
  far : nat;
  calls : list call;
  effects : list effect
}.

Definition Proc (A : Type) : Type := World -> state -> result A * state.

Definition ret {A} (a : A) : Proc A := fun _ s => (Returned a, s).

Definition bind {A B} (m : Proc A) (k : A -> Proc B) : Proc B :=
  fun w s =>
    match m w s with
    | (Returned a, s') => k a w s'
    | (Raised e, s') => (Raised e, s')
    end.

(** Writes on descriptor 1, one after the other, up to the first that
    fails: the piece that failed if any, the far end and the effects
    after them. *)
Fixpoint write_chunks (accept : nat -> string -> option nat)
    (chunks : list string) (st : nat) (eff : list effect)
    : option string * nat * list effect :=
  match chunks with
  | [] => (None, st, eff)
  | c :: rest =>
      match accept st c with
      | Some st' => write_chunks accept rest st' (eff ++ [Wrote c])
      | None => (Some c, st, eff ++ [Refused c])
      end
  end.

(** [print(text)].  The encoder may refuse the text
    (UnicodeEncodeError).  Otherwise the pieces of the plan are written
    now, after what the stream held if it writes at all; a write that
    fails raises OSError; the rest is held. *)
Definition print (text : string) : Proc unit :=
  fun w s =>
    let called := calls s ++ [CallPrint text] in
    match w_stream w (w_environ w) text with
    | None =>
        (Raised UnicodeEncodeError,
         mkState (pending s) (far s) called (effects s))
    | Some p =>
        let first :=
          match now p with
          | [] => []
          | _ :: _ => if String.eqb (pending s) "" then [] else [pending s]
          end in
        let kept :=
          match now p with
          | [] => pending s
          | _ :: _ => ""
          end in
        match write_chunks (w_accept w) (first ++ now p) (far s) (effects s)
        with
        | (None, st, eff) =>
            (Returned tt, mkState (kept ++ held p) st called eff)
        | (Some c, st, eff) =>
            (Raised OSError,
             mkState (if keeps_failed p then c else "") st called eff)
        end
    end.

(** [os.system(cmd)]: the stream is not flushed; the shell runs on the
    far end as it is, the call returns its wait status when it is over,
    or -1 when no process could be created.  (A command with a NUL byte
    would raise ValueError; a file name holds none.) *)
Definition os_system (cmd : string) : Proc Z :=
  fun w s =>
    match w_subordinate w (w_cwd w) (w_environ w) cmd (far s) with
    | Some c =>
        let st := wait_status (ended c) in
        (Returned st,
         mkState (pending s) (far_after c) (calls s ++ [CallSystem cmd])
                 (effects s ++ [Spawned cmd] ++ map ChildWrote (wrote c)
                    ++ [Reaped st]))
    | None =>
        (Returned (-1)%Z,
         mkState (pending s) (far s) (calls s ++ [CallSystem cmd])
                 (effects s ++ [NotSpawned cmd]))
    end.

(** A run as seen from outside. *)
Record outcome : Type := mkOutcome {
  result_of : result unit;
  calls_of : list call;
  effects_of : list effect;
  exit_of : Z
}.

(** The end of the interpreter: an exception nobody caught is reported
    and makes the status 1; then what the stream holds is flushed, and
    a flush that fails is reported and makes the status 120. *)
Definition finalize (w : World) (r : result unit) (s : state) : outcome :=
  let reported :=
    match r with
    | Returned _ => effects s
    | Raised e => effects s ++ [Complained e]
    end in
  if String.eqb (pending s) "" then
    mkOutcome r (calls s) reported (exit_status r)
  else
    match w_accept w (far s) (pending s) with
    | Some _ =>
        mkOutcome r (calls s) (reported ++ [Wrote (pending s)])
                  (exit_status r)
    | None =>
        mkOutcome r (calls s)
                  (reported ++ [Refused (pending s); Complained OSError])
                  120%Z
    end.

(** What a call of [os.system] leaves outside. *)
Definition shell_effects (cmd : string) (c : option child) : list effect :=
  match c with
  | Some ch =>
      [Spawned cmd] ++ map ChildWrote (wrote ch)
        ++ [Reaped (wait_status (ended ch))]
  | None => [NotSpawned cmd]
  end.

(** Observations. *)
Fixpoint spawns (eff : list effect) : list string :=
  match eff with
  | [] => []
  | Spawned c :: rest => c :: spawns rest
  | _ :: rest => spawns rest
  end.

Fixpoint writes (eff : list effect) : list string :=
  match eff with
  | [] => []
  | Wrote t :: rest => t :: writes rest
  | _ :: rest => writes rest
  end.

Definition is_failure (e : effect) : bool :=
  match e with
  | Refused _ | Complained _ => true
  | _ => false
  end.

Definition is_spawn (e : effect) : bool :=
  match e with Spawned _ => true | _ => false end.

(** The same world with other arguments, another environment, another
    working directory, a subordinate that ends otherwise. *)
Definition with_argv (w : World) (args : list string) : World :=
  mkWorld (w_cwd w) (w_script w) args (w_environ w) (w_stream w)
          (w_far w) (w_accept w) (w_subordinate w).

Definition with_environ (w : World) (vars : list (string * string))
    : World :=
  mkWorld (w_cwd w) (w_script w) (w_argv w) vars (w_stream w)
          (w_far w) (w_accept w) (w_subordinate w).

Definition with_cwd (w : World) (dir : string) : World :=
  mkWorld dir (w_script w) (w_argv w) (w_environ w) (w_stream w)
          (w_far w) (w_accept w) (w_subordinate w).


End Process.

Declare Scope proc_scope.
Delimit Scope proc_scope with proc.
Notation "x <- m ;; k" := (Process.bind m (fun x => k))
  (at level 61, m at next level, right associativity) : proc_scope.
Notation "m ;;; k" := (Process.bind m (fun _ => k))
  (at level 61, right associativity) : proc_scope.

(** ** The script in its process *)

Module Script.
Import Runtime Process.
Local Open Scope proc_scope.

(** The value of [__file__] in a world. *)
Definition dunder_file (w : World) : string :=
  Launch.abspath (w_cwd w) (w_script w).

Definition __file__ : Proc string := fun w s => (Returned (dunder_file w), s).

(** [main()], the same lines over the process. *)
Definition main : Proc unit :=
  file <- __file__ ;;
  print (GenApi.command file) ;;;
  _ <- os_system (GenApi.command file) ;;
  ret tt.

(** The file run as a program: [main()] with an empty stream, then the
    end of the interpreter. *)
Definition start (w : World) : state := mkState "" (w_far w) [] [].

Definition run (w : World) : outcome :=
  let (r, s) := main w (start w) in finalize w r s.

End Script.

(** ** Some interpreters, far ends and subordinates *)

Module Instances.
Import Runtime Process.

(** [getenv]. *)
Fixpoint getenv (name : string) (vars : list (string * string))
    : option string :=
  match vars with
  | [] => None
  | (k, v) :: rest => if String.eqb k name then Some v else getenv name rest
  end.

(** The interpreter reads PYTHONUNBUFFERED as a flag: unset or empty is
    off, a value [strtol] reads entirely as zero (blanks, a sign, zeros)
    is off, anything else is on. *)
Definition is_blank (c : ascii) : bool :=
  let n := nat_of_ascii c in
  Nat.eqb n 32 || (Nat.leb 9 n && Nat.leb n 13).

Fixpoint skip_blanks (s : string) : string :=
  match s with
  | String c r => if is_blank c then skip_blanks r else s
  | EmptyString => s
  end.

Definition skip_sign (s : string) : string :=
  match s with
  | String "+" r => r
  | String "-" r => r
  | _ => s
  end.

Fixpoint all_zeros (s : string) : bool :=
  match s with
  | EmptyString => true
  | String c r => Ascii.eqb c "0" && all_zeros r
  end.

Definition reads_as_zero (v : string) : bool :=
  let digits := skip_sign (skip_blanks v) in
  negb (String.eqb digits "") && all_zeros digits.

Definition pythonunbuffered (vars : list (string * string)) : bool :=
  match getenv "PYTHONUNBUFFERED" vars with
  | Some v => negb (String.eqb v "") && negb (reads_as_zero v)
  | None => false
  end.

(** [sys.stdout] of CPython 3.11 on a pipe (or on any descriptor that is
    no terminal), started without options in the POSIX locale, where the
    encoder takes every file name.  Unbuffered, the text and the newline
    are written at once, one after the other.  Otherwise a line of less
    than 8192 bytes is held until the exit; a line of 8192 bytes is
    written at once; of a longer one the text is written at once and
    the newline held. *)
Definition pipe_stream (vars : list (string * string)) (text : string)
    : option plan :=
  if pythonunbuffered vars then Some (mkPlan [text; newline] "" false)
  else if N.ltb (N.of_nat (String.length text)) 8191 then
    Some (mkPlan [] (text ++ newline)%string false)
  else if N.eqb (N.of_nat (String.length text)) 8191 then
    Some (mkPlan [(text ++ newline)%string] "" false)
  else Some (mkPlan [text] newline false).

(** Far ends: one that takes every write (a file, a pipe whose reader
    stays), one that takes none (/dev/full, a pipe whose reader has
    left), and a pipe read by [head -n k], which leaves once it has
    seen k lines: the state is the number of lines it still waits
    for. *)
Definition takes_all (st : nat) (text : string) : option nat := Some st.

Definition takes_none (st : nat) (text : string) : option nat := None.

Fixpoint newlines (s : string) : nat :=
  match s with
  | EmptyString => 0
  | String c r => (if Ascii.eqb c "010" then 1 else 0) + newlines r
  end.


(** Subordinates: one that writes nothing, one that writes a line (and
    so uses up one of the lines a reader waits for). *)
Definition silent (e : ending)
    (dir : string) (vars : list (string * string)) (cmd : string)
    (st : nat) : option child :=
  Some (mkChild e [] st).

Definition chatty (e : ending) (line : string)
    (dir : string) (vars : list (string * string)) (cmd : string)
    (st : nat) : option child :=
  Some (mkChild e [line] (st - newlines line)).

(** The script at /srv/app/scripts/gen-api.py, started by its absolute
    name with no argument and an empty environment. *)
Definition started (accept : nat -> string -> option nat) (st : nat)
    (sub : string -> list (string * string) -> string -> nat
           -> option child)
    : World :=
  mkWorld "/srv/app" "/srv/app/scripts/gen-api.py" [] [] pipe_stream
          st accept sub.

(** The script started as [path] in the directory [dir], on a pipe that
    takes every write, with a silent subordinate. *)
Definition launched (dir path : string) : World :=
  mkWorld dir path [] [] pipe_stream 0 takes_all (silent (Exit 0)).

End Instances.

(** * The model on concrete inputs *)

Section Examples.
Local Open Scope path_scope.

Example split_doubled : PyStr.split "/" "a//b/" = ["a"; ""; "b"; ""].
Proof. reflexivity. Qed.

Example split_empty : PyStr.split "/" "" = [""].
Proof. reflexivity. Qed.

Example path_normalised :
  Path "///srv/./app//scripts/" = mkPath "/" ["srv"; "app"; "scripts"].
Proof. reflexivity. Qed.

Example path_two_slashes : Path "//srv/app" = mkPath "//" ["srv"; "app"].
Proof. reflexivity. Qed.

Example path_keeps_dotdot : str (Path "a/../b") = "a/../b".
Proof. reflexivity. Qed.

Example str_empty_path : str (Path "") = ".".
Proof. reflexivity. Qed.

Example parent_of_root : parent (Path "/") = Path "/".
Proof. reflexivity. Qed.

Example parent_of_name : str (parent (Path "gen-api.py")) = ".".
Proof. reflexivity. Qed.

Example truediv_rooted_key : str (Path "/srv/app" / "/etc") = "/etc".
Proof. reflexivity. Qed.

Example command_usual :
  command "/home/dev/runciv/frontend/scripts/gen-api.py"
  = "npx @openapitools/openapi-generator-cli generate -g typescript-fetch -i /home/dev/runciv/frontend/openapi.json -o /home/dev/runciv/frontend/src/api/generated -c /home/dev/runciv/frontend/src/api/generated/config.json".
Proof. reflexivity. Qed.

(** Directly below the root the project root is "/" itself. *)
Example command_below_root :
  command "/scripts/gen-api.py"
  = "npx @openapitools/openapi-generator-cli generate -g typescript-fetch -i /openapi.json -o /src/api/generated -c /src/api/generated/config.json".
Proof. reflexivity. Qed.

(** A relative [__file__] with fewer than three components has the empty
    path as its project root. *)
Example command_relative :
  command "scripts/gen-api.py"
  = "npx @openapitools/openapi-generator-cli generate -g typescript-fetch -i openapi.json -o src/api/generated -c src/api/generated/config.json".
Proof. reflexivity. Qed.

(** The generator is not installed: the shell exits with 127, the script
    with 0. *)
Example run_command_not_found :
  let env := mkEnv "/scripts/gen-api.py" "/" [] [] (fun _ _ _ => Exited 127) in
  script_exit env = 0%Z
  /\ trace env
     = [StdoutWrite (command "/scripts/gen-api.py" ++ newline);
        ShellSpawn (command "/scripts/gen-api.py");
        ShellReaped 32512].
Proof. split; reflexivity. Qed.

End Examples.

(** * Properties *)

(** ** Strings *)

Section StringFacts.

Lemma append_nil_r (s : string) : (s ++ "")%string = s.
Proof. induction s as [|c s IH]; simpl; [reflexivity | now rewrite IH]. Qed.

Lemma append_assoc (a b c : string) :
  ((a ++ b) ++ c = a ++ (b ++ c))%string.
Proof. induction a as [|x a IH]; simpl; [reflexivity | now rewrite IH]. Qed.

Lemma append_eq_nil (a b : string) :
  (a ++ b)%string = "" -> a = "" /\ b = "".
Proof. destruct a; simpl; [auto | discriminate]. Qed.

Lemma contains_append (c : ascii) (a b : string) :
  PyStr.contains c (a ++ b)%string = PyStr.contains c a || PyStr.contains c b.
Proof.
  unfold PyStr.contains, PyStr.chars.
  induction a as [|x a IH]; simpl; [reflexivity |].
  rewrite IH. now rewrite orb_assoc.
Qed.

(** Joining one more part: the separator comes only between parts. *)
Lemma join_snoc (sp : string) (l : list string) (x : string) :
  l <> [] -> PyStr.join sp (l ++ [x]) = (PyStr.join sp l ++ sp ++ x)%string.
Proof.
  unfold PyStr.join.
  induction l as [|a l IH]; intros Hne; [congruence |].
  destruct l as [|b l].
  - reflexivity.
  - change (String.concat sp ((a :: b :: l) ++ [x]))
      with (a ++ sp ++ String.concat sp ((b :: l) ++ [x]))%string.
    rewrite IH by discriminate.
    change (String.concat sp (a :: b :: l))
      with (a ++ sp ++ String.concat sp (b :: l))%string.
    now rewrite !append_assoc.
Qed.

Lemma join_snoc_nonempty (sp : string) (l : list string) (x : string) :
  x <> "" -> PyStr.join sp (l ++ [x]) <> "".
Proof.
  intros Hx. destruct l as [|a l].
  - simpl. exact Hx.
  - rewrite join_snoc by discriminate.
    intros H. apply append_eq_nil in H as [_ H].
    apply append_eq_nil in H as [_ H]. contradiction.
Qed.

End StringFacts.

(** ** split and join *)

Section SplitJoin.
Import PyStr.

Lemma split_not_nil (c : ascii) (s : string) : split c s <> [].
Proof.
  induction s as [|x s IH]; simpl; [discriminate |].
  destruct (Ascii.eqb x c); [discriminate |].
  destruct (split c s); [contradiction | discriminate].
Qed.

(** A string without the separator is its own single piece. *)
Lemma split_no_sep (c : ascii) (s : string) :
  contains c s = false -> split c s = [s].
Proof.
  unfold contains, chars.
  induction s as [|x s IH]; simpl; intros H; [reflexivity |].
  apply orb_false_iff in H as [Hx Hs].
  rewrite Ascii.eqb_sym, Hx. now rewrite IH.
Qed.

(** The first piece ends at the first separator. *)
Lemma split_first_piece (c : ascii) (s r : string) :
  contains c s = false ->
  split c (s ++ String c r)%string = s :: split c r.
Proof.
  unfold contains, chars.
  induction s as [|x s IH]; simpl; intros H.
  - now rewrite Ascii.eqb_refl.
  - apply orb_false_iff in H as [Hx Hs].
    rewrite Ascii.eqb_sym, Hx. now rewrite IH.
Qed.

(** [split] undoes [join] on parts that hold no separator. *)
Lemma split_join (c : ascii) (l : list string) :
  l <> [] ->
  forallb (fun x => negb (contains c x)) l = true ->
  split c (join (String c "") l) = l.
Proof.
  unfold join.
  induction l as [|a l IH]; intros Hne Hall; [congruence |].
  simpl in Hall. apply andb_true_iff in Hall as [Ha Hl].
  apply negb_true_iff in Ha.
  destruct l as [|b l].
  - simpl. now apply split_no_sep.
  - change (String.concat (String c "") (a :: b :: l))
      with (a ++ String c (String.concat (String c "") (b :: l)))%string.
    rewrite split_first_piece by assumption.
    f_equal. apply IH; [discriminate | assumption].
Qed.

End SplitJoin.

(** ** Paths *)

Section PathFacts.
Local Open Scope path_scope.

Lemma component_keep (x : string) : component x = true -> keep x = true.
Proof. unfold component. intros H. now apply andb_true_iff in H. Qed.

Lemma component_no_sep (x : string) :
  component x = true -> PyStr.contains sep x = false.
Proof.
  unfold component. intros H. apply andb_true_iff in H as [_ H].
  now apply negb_true_iff in H.
Qed.

Lemma keep_nonempty (x : string) : keep x = true -> x <> "".
Proof. intros H ->. discriminate H. Qed.

(** A component does not start with the separator, so it has no root. *)
Lemma splitroot_component (x : string) :
  component x = true -> splitroot x = ("", x).
Proof.
  intros H. pose proof (component_no_sep x H) as Hs.
  destruct x as [|c x]; [reflexivity |].
  unfold PyStr.contains, PyStr.chars in Hs. simpl in Hs.
  apply orb_false_iff in Hs as [Hc _].
  unfold splitroot.
  destruct c as [[] [] [] [] [] [] [] []]; try reflexivity.
  discriminate Hc.
Qed.

Lemma parse_path_component (x : string) :
  component x = true -> parse_path x = mkPath "" [x].
Proof.
  intros H. unfold parse_path.
  rewrite (splitroot_component x H).
  rewrite (split_no_sep sep x (component_no_sep x H)). simpl.
  now rewrite (component_keep x H).
Qed.

(** Dividing by a component appends it. *)
Lemma truediv_component (p : PurePath) (x : string) :
  component x = true -> p / x = mkPath (root p) (tail p ++ [x]).
Proof.
  intros H. unfold truediv. now rewrite (parse_path_component x H).
Qed.

Lemma forallb_removelast {A} (f : A -> bool) (l : list A) :
  forallb f l = true -> forallb f (removelast l) = true.
Proof.
  induction l as [|a l IH]; [auto |].
  intros H. simpl in H. apply andb_true_iff in H as [Ha Hl].
  destruct l as [|b l]; [reflexivity |].
  change (removelast (a :: b :: l)) with (a :: removelast (b :: l)).
  simpl forallb at 1. rewrite Ha. now apply IH.
Qed.

(** Parsing, [parent] and [/] keep the invariant. *)
Lemma parsed_parse_path (s : string) : parsed (parse_path s) = true.
Proof.
  unfold parsed, parse_path. destruct (splitroot s). simpl.
  apply forallb_filter.
Qed.

Lemma parsed_parent (p : PurePath) :
  parsed p = true -> parsed (parent p) = true.
Proof.
  unfold parsed, parent. intros H.
  destruct (tail p) as [|a l] eqn:E.
  - now rewrite E.
  - change (forallb keep (removelast (a :: l)) = true).
    now apply forallb_removelast.
Qed.

Lemma parsed_truediv (p : PurePath) (k : string) :
  parsed p = true -> parsed (p / k) = true.
Proof.
  intros H. unfold truediv.
  destruct (String.eqb (root (parse_path k)) "").
  - unfold parsed. simpl. rewrite forallb_app.
    apply andb_true_iff. split; [exact H | apply parsed_parse_path].
  - apply parsed_parse_path.
Qed.

Lemma parsed_project_root (file : string) :
  parsed (project_root file) = true.
Proof.
  unfold project_root, script_file, Path.
  apply parsed_parent, parsed_parent, parsed_parse_path.
Qed.

(** Formatting. *)
Lemma format_snoc_nonempty (rt : string) (tl : list string) (x : string) :
  x <> "" -> format_parsed_parts rt (tl ++ [x]) <> "".
Proof.
  intros Hx H. unfold format_parsed_parts in H.
  apply append_eq_nil in H as [_ H].
  now apply (join_snoc_nonempty "/" tl x Hx).
Qed.

Lemma format_snoc (rt : string) (tl : list string) (x : string) :
  tl <> [] ->
  format_parsed_parts rt (tl ++ [x])
  = (format_parsed_parts rt tl ++ "/" ++ x)%string.
Proof.
  intros H. unfold format_parsed_parts.
  rewrite join_snoc by assumption. now rewrite append_assoc.
Qed.

Lemma str_snoc (rt : string) (tl : list string) (x : string) :
  x <> "" ->
  str (mkPath rt (tl ++ [x])) = format_parsed_parts rt (tl ++ [x]).
Proof.
  intros Hx. unfold str. simpl root; simpl tail.
  destruct (String.eqb_spec (format_parsed_parts rt (tl ++ [x])) "") as [E|_].
  - now apply format_snoc_nonempty in E.
  - reflexivity.
Qed.

(** A parsed path with a component prints as its formatted parts. *)
Lemma str_parsed (p : PurePath) :
  parsed p = true -> tail p <> [] ->
  str p = format_parsed_parts (root p) (tail p).
Proof.
  destruct p as [rt tl]. unfold parsed. simpl. intros Hp Hne.
  destruct (exists_last Hne) as [l [x ->]].
  rewrite forallb_app in Hp. apply andb_true_iff in Hp as [_ Hx].
  simpl in Hx. rewrite andb_true_r in Hx.
  apply str_snoc. now apply keep_nonempty.
Qed.

(** Below a directory the string grows by "/" and the component. *)
Lemma str_truediv (p : PurePath) (x : string) :
  parsed p = true -> tail p <> [] -> component x = true ->
  str (p / x) = (str p ++ "/" ++ x)%string.
Proof.
  intros Hp Hne Hx.
  rewrite (truediv_component p x Hx).
  rewrite str_snoc by (apply keep_nonempty, component_keep, Hx).
  rewrite format_snoc by assumption.
  now rewrite (str_parsed p Hp Hne).
Qed.

(** Right below the root, or below the empty path, no "/" is added. *)
Lemma str_truediv_top (p : PurePath) (x : string) :
  tail p = [] -> component x = true ->
  str (p / x) = (root p ++ x)%string.
Proof.
  intros Hnil Hx.
  rewrite (truediv_component p x Hx), Hnil.
  change ([] ++ [x]) with ([] ++ [x])%list.
  rewrite (str_snoc (root p) [] x)
    by (apply keep_nonempty, component_keep, Hx).
  reflexivity.
Qed.

Lemma tail_truediv_component (p : PurePath) (x : string) :
  component x = true -> tail (p / x) <> [].
Proof.
  intros Hx. rewrite (truediv_component p x Hx). simpl.
  destruct (tail p); discriminate.
Qed.

End PathFacts.

(** ** The three paths of the command *)

Section CommandPaths.
Local Open Scope path_scope.

Lemma spec_parts (file : string) :
  spec file
  = mkPath (root (project_root file))
           (tail (project_root file) ++ ["openapi.json"]).
Proof. unfold spec. now rewrite truediv_component. Qed.

Lemma generated_parts (file : string) :
  generated file
  = mkPath (root (project_root file))
           (tail (project_root file) ++ ["src"; "api"; "generated"]).
Proof.
  unfold generated. rewrite !truediv_component by reflexivity.
  simpl. now rewrite <- !app_assoc.
Qed.

Lemma config_parts (file : string) :
  config file
  = mkPath (root (project_root file))
           (tail (project_root file)
              ++ ["src"; "api"; "generated"; "config.json"]).
Proof.
  unfold config. rewrite generated_parts.
  rewrite truediv_component by reflexivity.
  simpl. now rewrite <- !app_assoc.
Qed.

Lemma parsed_generated (file : string) : parsed (generated file) = true.
Proof.
  unfold generated.
  apply parsed_truediv, parsed_truediv, parsed_truediv, parsed_project_root.
Qed.

Lemma tail_generated (file : string) : tail (generated file) <> [].
Proof. unfold generated. now apply tail_truediv_component. Qed.

(** The config argument is the output argument followed by
    "/config.json", wherever the script is. *)
Lemma str_config (file : string) :
  str (config file) = (str (generated file) ++ "/config.json")%string.
Proof.
  unfold config.
  rewrite str_truediv;
    [reflexivity | apply parsed_generated | apply tail_generated
    | reflexivity].
Qed.

(** The arguments when the project root has a component. *)
Lemma str_spec_below (file : string) :
  tail (project_root file) <> [] ->
  str (spec file) = (str (project_root file) ++ "/openapi.json")%string.
Proof.
  intros Hne. unfold spec.
  rewrite str_truediv;
    [reflexivity | apply parsed_project_root | assumption | reflexivity].
Qed.

Lemma str_generated_below (file : string) :
  tail (project_root file) <> [] ->
  str (generated file)
  = (str (project_root file) ++ "/src/api/generated")%string.
Proof.
  intros Hne. unfold generated.
  pose proof (parsed_project_root file) as Hp.
  rewrite (str_truediv (_ / "src" / "api") "generated");
    [| now repeat apply parsed_truediv
     | now apply tail_truediv_component | reflexivity].
  rewrite (str_truediv (_ / "src") "api");
    [| now apply parsed_truediv
     | now apply tail_truediv_component | reflexivity].
  rewrite (str_truediv _ "src") by (assumption || reflexivity).
  now rewrite !append_assoc.
Qed.

(** The arguments when the project root is "/", "//" or the empty
    path: the root is followed by the first component at once. *)
Lemma str_spec_top (file : string) :
  tail (project_root file) = [] ->
  str (spec file) = (root (project_root file) ++ "openapi.json")%string.
Proof. intros Hnil. unfold spec. now rewrite str_truediv_top. Qed.

Lemma str_generated_top (file : string) :
  tail (project_root file) = [] ->
  str (generated file)
  = (root (project_root file) ++ "src/api/generated")%string.
Proof.
  intros Hnil. rewrite generated_parts, Hnil.
  change ([] ++ ["src"; "api"; "generated"])
    with (["src"; "api"] ++ ["generated"]).
  rewrite str_snoc by discriminate. reflexivity.
Qed.

End CommandPaths.

(** ** Absolute, normalised locations

    [format_parsed_parts "/" l] is the absolute file name with the
    components [l]; parsing it gives the components back. *)

Section AbsoluteLocations.

Lemma forallb_component_keep (l : list string) :
  forallb component l = true -> forallb keep l = true.
Proof.
  induction l as [|a l IH]; [auto |]. simpl. intros H.
  apply andb_true_iff in H as [Ha Hl].
  now rewrite (component_keep a Ha), IH.
Qed.

Lemma forallb_component_no_sep (l : list string) :
  forallb component l = true ->
  forallb (fun x => negb (PyStr.contains sep x)) l = true.
Proof.
  induction l as [|a l IH]; [auto |]. simpl. intros H.
  apply andb_true_iff in H as [Ha Hl].
  now rewrite (component_no_sep a Ha), IH.
Qed.

Lemma splitroot_absolute (l : list string) :
  forallb component l = true ->
  splitroot (format_parsed_parts "/" l) = ("/", PyStr.join "/" l).
Proof.
  intros H. destruct l as [|a l]; [reflexivity |].
  simpl in H. apply andb_true_iff in H as [Ha _].
  pose proof (component_no_sep a Ha) as Hs.
  pose proof (keep_nonempty a (component_keep a Ha)) as Hne.
  destruct a as [|c a]; [congruence |].
  assert (Hc : c <> "/"%char).
  { intros ->. discriminate Hs. }
  unfold format_parsed_parts, PyStr.join.
  assert (Hj : exists r, String.concat "/" (String c a :: l) = String c r).
  { destruct l; simpl; eauto. }
  destruct Hj as [r ->]. simpl.
  destruct c as [[] [] [] [] [] [] [] []]; try reflexivity.
  congruence.
Qed.

Lemma parse_path_absolute (l : list string) :
  forallb component l = true ->
  parse_path (format_parsed_parts "/" l) = mkPath "/" l.
Proof.
  intros H. unfold parse_path. rewrite (splitroot_absolute l H).
  destruct l as [|a l]; [reflexivity |].
  change "/"%string with (String sep "").
  rewrite split_join;
    [| discriminate | now apply forallb_component_no_sep].
  now rewrite forallb_filter_id by now apply forallb_component_keep.
Qed.

Lemma project_root_absolute (ds : list string) (d f : string) :
  forallb component (ds ++ [d; f]) = true ->
  project_root (format_parsed_parts "/" (ds ++ [d; f])) = mkPath "/" ds.
Proof.
  intros H. unfold project_root, script_file, Path.
  rewrite (parse_path_absolute _ H).
  change (ds ++ [d; f]) with (ds ++ [d] ++ [f]). rewrite app_assoc.
  unfold parent at 2. simpl tail.
  destruct ((ds ++ [d]) ++ [f]) eqn:E;
    [now destruct ds | rewrite <- E; clear E].
  rewrite removelast_last. unfold parent. simpl.
  destruct (ds ++ [d]) eqn:E;
    [now destruct ds | rewrite <- E; clear E].
  now rewrite removelast_last.
Qed.

End AbsoluteLocations.

(** ** Runs *)

Section Runs.

(** [main] returns, and adds three effects to whatever came before:
    the write, the start of the shell, its end. *)
Lemma main_effects (env : Env) (tr : list event) :
  main env tr
  = (Returned tt,
     tr ++ [StdoutWrite (command (dunder_file env) ++ newline);
            ShellSpawn (command (dunder_file env));
            ShellReaped (shell_status env)]).
Proof.
  unfold main, __file__, print, os_system, bind, ask, ret, emit,
    shell_status.
  now rewrite <- !app_assoc.
Qed.

Lemma trace_run (env : Env) :
  trace env
  = [StdoutWrite (command (dunder_file env) ++ newline);
     ShellSpawn (command (dunder_file env));
     ShellReaped (shell_status env)].
Proof. unfold trace, run. now rewrite main_effects. Qed.

Lemma run_returns (env : Env) : fst (run env) = Returned tt.
Proof. unfold run. now rewrite main_effects. Qed.

End Runs.

(** ** The project root as a prefix *)

Section RootPrefix.

Lemma prefix_append (a b : string) : String.prefix a (a ++ b) = true.
Proof.
  induction a as [|c a IH]; simpl; [now destruct b |].
  destruct (ascii_dec c c); [exact IH | congruence].
Qed.

(** Each argument starts with the formatted project root. *)
Lemma str_arguments_extend_root (file : string) :
  exists a b c : string,
    str (spec file)
    = (format_parsed_parts (root (project_root file))
         (tail (project_root file)) ++ a)%string
    /\ str (generated file)
       = (format_parsed_parts (root (project_root file))
            (tail (project_root file)) ++ b)%string
    /\ str (config file)
       = (format_parsed_parts (root (project_root file))
            (tail (project_root file)) ++ c)%string.
Proof.
  destruct (tail (project_root file)) as [|x l] eqn:E.
  - exists "openapi.json", "src/api/generated",
      "src/api/generated/config.json".
    unfold format_parsed_parts. simpl PyStr.join.
    rewrite append_nil_r, str_config.
    rewrite str_spec_top, str_generated_top by assumption.
    now rewrite append_assoc.
  - assert (Hne : tail (project_root file) <> []) by now rewrite E.
    exists "/openapi.json", "/src/api/generated",
      "/src/api/generated/config.json".
    rewrite <- E.
    rewrite <- (str_parsed _ (parsed_project_root file) Hne).
    rewrite str_config.
    rewrite str_spec_below, str_generated_below by assumption.
    now rewrite append_assoc.
Qed.

End RootPrefix.

(** * The specification, property by property *)

Section Specification.
  Local Open Scope path_scope.

(** C1. For a script at [P] whose parent's parent is [R], the three
    paths put into the command are [R / "openapi.json"],
    [R / "src" / "api" / "generated"] and that directory's "config.json":
    the root of [R], the components of [R], then the fixed components.
    As text they are [str R] followed by "/openapi.json",
    "/src/api/generated" and "/src/api/generated/config.json" whenever [R]
    has a component; when [R] is a bare root or the empty path the fixed
    components follow the root at once, as pathlib joins them. *)
Theorem command_references_project_paths (P : string) (R : PurePath) :
  parent (parent (Path P)) = R ->
  spec P = mkPath (root R) (tail R ++ ["openapi.json"])
  /\ generated P = mkPath (root R) (tail R ++ ["src"; "api"; "generated"])
  /\ config P
     = mkPath (root R) (tail R ++ ["src"; "api"; "generated"; "config.json"])
  /\ command P
     = Shape.command_line
         (str (R / "openapi.json"))
         (str (R / "src" / "api" / "generated"))
         (str (R / "src" / "api" / "generated" / "config.json"))
  /\ (tail R <> [] ->
      str (spec P) = (str R ++ "/openapi.json")%string
      /\ str (generated P) = (str R ++ "/src/api/generated")%string
      /\ str (config P)
         = (str R ++ "/src/api/generated/config.json")%string)
  /\ (tail R = [] ->
      str (spec P) = (root R ++ "openapi.json")%string
      /\ str (generated P) = (root R ++ "src/api/generated")%string
      /\ str (config P)
         = (root R ++ "src/api/generated/config.json")%string).
Proof.
  intros <-. fold (script_file P). fold (project_root P).
  split; [apply spec_parts |].
  split; [apply generated_parts |].
  split; [apply config_parts |].
  split; [reflexivity |].
  split.
  - intros Hne. split; [now apply str_spec_below |].
    split; [now apply str_generated_below |].
    rewrite str_config, str_generated_below by assumption.
    now rewrite append_assoc.
  - intros Hnil. split; [now apply str_spec_top |].
    split; [now apply str_generated_top |].
    rewrite str_config, str_generated_top by assumption.
    now rewrite append_assoc.
Qed.

Lemma command_references_project_paths_witness :
  parent (parent (Path "/home/dev/runciv/frontend/scripts/gen-api.py"))
  = mkPath "/" ["home"; "dev"; "runciv"; "frontend"]
  /\ str (spec "/home/dev/runciv/frontend/scripts/gen-api.py")
     = "/home/dev/runciv/frontend/openapi.json"
  /\ str (generated "/home/dev/runciv/frontend/scripts/gen-api.py")
     = "/home/dev/runciv/frontend/src/api/generated"
  /\ str (config "/home/dev/runciv/frontend/scripts/gen-api.py")
     = "/home/dev/runciv/frontend/src/api/generated/config.json".
Proof.
  split; [reflexivity |].
  destruct (command_references_project_paths
              "/home/dev/runciv/frontend/scripts/gen-api.py"
              (mkPath "/" ["home"; "dev"; "runciv"; "frontend"])
              eq_refl) as (_ & _ & _ & _ & Hbelow & _).
  apply Hbelow. discriminate.
Defined.

(** C2. On every run the command has the shape
    [<generator-cli-entry> generate -g typescript-fetch -i <spec-path>
    -o <output-dir> -c <config-path>]: the entry, the action and the
    target are the same literals whatever the environment (working
    directory, arguments, variables, shell) is; only the three paths
    vary, and they are those of the script's location. *)
Theorem command_has_fixed_shape (env : Env) :
  command (dunder_file env)
  = Shape.command_line (str (spec (dunder_file env)))
                       (str (generated (dunder_file env)))
                       (str (config (dunder_file env)))
  /\ printed (trace env)
     = [(Shape.command_line (str (spec (dunder_file env)))
                            (str (generated (dunder_file env)))
                            (str (config (dunder_file env)))
         ++ newline)%string]
  /\ spawned (trace env)
     = [Shape.command_line (str (spec (dunder_file env)))
                           (str (generated (dunder_file env)))
                           (str (config (dunder_file env)))]
  /\ Shape.generator_cli_entry = "npx @openapitools/openapi-generator-cli"
  /\ Shape.action = "generate"
  /\ Shape.target = "typescript-fetch".
Proof.
  rewrite trace_run. repeat split; reflexivity.
Qed.

(** C9. The arguments of the constructed command are the texts of
    [spec], [generated] and [config]; the config argument is the
    output-directory argument extended by the component "config.json",
    the input argument is the project root extended by "openapi.json",
    and the three arguments share the project root: as paths they have
    its root and begin with its components, as text they begin with its
    formatted parts. *)
Theorem path_arguments_share_project_root (file : string) :
  command file
  = Shape.command_line (str (spec file)) (str (generated file))
                       (str (config file))
  /\ config file = generated file / "config.json"
  /\ str (config file) = (str (generated file) ++ "/config.json")%string
  /\ spec file = project_root file / "openapi.json"
  /\ (root (spec file) = root (project_root file)
      /\ root (generated file) = root (project_root file)
      /\ root (config file) = root (project_root file))
  /\ (tail (spec file) = tail (project_root file) ++ ["openapi.json"]
      /\ tail (generated file)
         = tail (project_root file) ++ ["src"; "api"; "generated"]
      /\ tail (config file)
         = tail (generated file) ++ ["config.json"])
  /\ (String.prefix
        (format_parsed_parts (root (project_root file))
                             (tail (project_root file)))
        (str (spec file)) = true
      /\ String.prefix
           (format_parsed_parts (root (project_root file))
                                (tail (project_root file)))
           (str (generated file)) = true
      /\ String.prefix
           (format_parsed_parts (root (project_root file))
                                (tail (project_root file)))
           (str (config file)) = true).
Proof.
  split; [reflexivity |].
  split; [reflexivity |].
  split; [apply str_config |].
  split; [reflexivity |].
  split; [now rewrite spec_parts, generated_parts, config_parts |].
  split.
  - rewrite spec_parts, config_parts, generated_parts. simpl.
    repeat split. now rewrite <- app_assoc.
  - destruct (str_arguments_extend_root file) as (a & b & c & -> & -> & ->).
    repeat split; apply prefix_append.
Qed.


(** C6. The paths enter the command as they are, with no quoting and no
    escaping.  For an absolute location with components [ds], a
    directory [d] and a file [f], each argument is "/" and the
    components joined by "/", byte for byte; the fixed text of the
    command holds no quote and no backslash; and for the location
    "/srv/my app;id/frontend/scripts/gen-api.py" the command holds the
    space and the semicolon bare. *)
Theorem paths_interpolated_verbatim :
  (forall (ds : list string) (d f : string),
      forallb component (ds ++ [d; f]) = true ->
      command (format_parsed_parts "/" (ds ++ [d; f]))
      = Shape.command_line
          (format_parsed_parts "/" (ds ++ ["openapi.json"]))
          (format_parsed_parts "/" (ds ++ ["src"; "api"; "generated"]))
          (format_parsed_parts "/"
             (ds ++ ["src"; "api"; "generated"; "config.json"])))
  /\ forallb (fun q => negb (PyStr.contains q (Shape.command_line "" "" "")))
       ["039"%char; "034"%char; "092"%char] = true
  /\ exists file : string,
       PyStr.contains " " file = true
       /\ PyStr.contains ";" file = true
       /\ command file
          = "npx @openapitools/openapi-generator-cli generate -g typescript-fetch -i /srv/my app;id/frontend/openapi.json -o /srv/my app;id/frontend/src/api/generated -c /srv/my app;id/frontend/src/api/generated/config.json".
Proof.
  split; [| split; [reflexivity |]].
  - intros ds d f H. unfold command.
    rewrite spec_parts, config_parts, generated_parts.
    rewrite (project_root_absolute ds d f H). simpl root; simpl tail.
    change (ds ++ ["src"; "api"; "generated"])
      with (ds ++ ["src"; "api"] ++ ["generated"]).
    change (ds ++ ["src"; "api"; "generated"; "config.json"])
      with (ds ++ ["src"; "api"; "generated"] ++ ["config.json"]).
    rewrite !app_assoc, !str_snoc by discriminate.
    reflexivity.
  - exists "/srv/my app;id/frontend/scripts/gen-api.py".
    repeat split; reflexivity.
Qed.

Lemma paths_interpolated_verbatim_witness :
  forallb component (["srv"; "my app;id"; "frontend"]
                       ++ ["scripts"; "gen-api.py"]) = true
  /\ command "/srv/my app;id/frontend/scripts/gen-api.py"
     = Shape.command_line
         "/srv/my app;id/frontend/openapi.json"
         "/srv/my app;id/frontend/src/api/generated"
         "/srv/my app;id/frontend/src/api/generated/config.json".
Proof.
  split; [reflexivity |].
  exact (proj1 paths_interpolated_verbatim
           ["srv"; "my app;id"; "frontend"] "scripts" "gen-api.py"
           eq_refl).
Defined.

End Specification.

(** * Further properties of the script *)

Import PathShape.

(** ** parent and the division *)

Section ParentFacts.
Local Open Scope path_scope.

Lemma parent_snoc (rt : string) (tl : list string) (x : string) :
  parent (mkPath rt (tl ++ [x])) = mkPath rt tl.
Proof.
  unfold parent. simpl.
  destruct (tl ++ [x]) eqn:E; [now destruct tl | rewrite <- E].
  now rewrite removelast_last.
Qed.

Lemma parent_truediv (p : PurePath) (x : string) :
  component x = true -> parent (p / x) = p.
Proof.
  intros H. rewrite (truediv_component p x H), parent_snoc.
  now destruct p.
Qed.

(** [parent] drops the last component and stops at none. *)
Lemma parent_firstn (p : PurePath) :
  parent p = mkPath (root p) (firstn (length (tail p) - 1) (tail p)).
Proof.
  destruct p as [rt tl]. unfold parent. simpl.
  destruct tl as [|a l]; [reflexivity |].
  rewrite removelast_firstn_len. simpl length.
  now rewrite Nat.sub_1_r.
Qed.

End ParentFacts.

(** ** The layout below the project root *)

Section Layout.
Local Open Scope path_scope.

(** X2. The project root is the script's path without its last two
    components, and without all of them when there are fewer than two:
    the root of the path never changes, and going up stops at it. *)
Theorem project_root_two_levels_up (file : string) :
  project_root file
  = mkPath (root (Path file))
           (firstn (length (tail (Path file)) - 2) (tail (Path file))).
Proof.
  unfold project_root, script_file.
  rewrite (parent_firstn (Path file)).
  rewrite parent_firstn. simpl root; simpl tail.
  rewrite firstn_firstn, length_firstn.
  f_equal. f_equal. lia.
Qed.

(** X3. A script with at most two components in its path (a file right
    below the root or one level deeper, or a relative name such as
    "gen-api.py" or "scripts/gen-api.py") has the bare root as project
    root: the arguments are the root of the path followed by
    "openapi.json", "src/api/generated" and
    "src/api/generated/config.json". *)
Theorem command_of_shallow_location (file : string) :
  (length (tail (Path file)) <= 2)%nat ->
  project_root file = mkPath (root (Path file)) []
  /\ command file
     = Shape.command_line
         (root (Path file) ++ "openapi.json")
         (root (Path file) ++ "src/api/generated")
         (root (Path file) ++ "src/api/generated/config.json").
Proof.
  intros Hlen.
  assert (Hroot : project_root file = mkPath (root (Path file)) []).
  { rewrite project_root_two_levels_up.
    replace (length (tail (Path file)) - 2)%nat with 0%nat by lia.
    reflexivity. }
  split; [exact Hroot |].
  assert (Hnil : tail (project_root file) = []) by now rewrite Hroot.
  unfold command.
  rewrite str_config, str_spec_top, str_generated_top by assumption.
  rewrite Hroot. simpl root. unfold Shape.command_line.
  now rewrite !append_assoc.
Qed.

Lemma command_of_shallow_location_witness :
  command "gen-api.py"
  = Shape.command_line "openapi.json" "src/api/generated"
      "src/api/generated/config.json".
Proof.
  apply (command_of_shallow_location "gen-api.py").
  simpl. lia.
Defined.

(** X4. The layout the three paths have among themselves: the spec file
    lies directly in the project root, the config file directly in the
    output directory, and the output directory three levels below the
    project root. *)
Theorem layout_below_project_root (file : string) :
  parent (spec file) = project_root file
  /\ parent (config file) = generated file
  /\ parent (parent (parent (generated file))) = project_root file.
Proof.
  unfold spec, config, generated.
  now rewrite !parent_truediv by reflexivity.
Qed.

(** X5. The input never lies inside the output directory: the components
    of the output directory are no prefix of those of the spec file,
    and the output directory is not the project root. *)
Theorem spec_outside_output_directory (file : string) :
  (forall rest : list string,
      tail (spec file) <> tail (generated file) ++ rest)
  /\ generated file <> project_root file.
Proof.
  rewrite spec_parts, generated_parts. simpl tail. split.
  - intros rest H. apply (f_equal (@length string)) in H.
    rewrite !length_app in H. simpl in H. lia.
  - intros H. apply (f_equal tail) in H. simpl in H.
    apply (f_equal (@length string)) in H.
    rewrite length_app in H. simpl in H. lia.
Qed.

End Layout.

(** ** Normal forms and the round trip through text *)

Section NormalForm.
Local Open Scope path_scope.

Lemma split_pieces_no_sep (c : ascii) (s : string) :
  absent c (PyStr.split c s) = true.
Proof.
  unfold absent, PyStr.contains, PyStr.chars.
  induction s as [|x s IH]; [reflexivity |].
  simpl PyStr.split. destruct (Ascii.eqb x c) eqn:E.
  - simpl. exact IH.
  - destruct (PyStr.split c s) as [|w ws]; simpl.
    + now rewrite Ascii.eqb_sym, E.
    + simpl in IH. now rewrite Ascii.eqb_sym, E.
Qed.

Lemma splitroot_valid (s : string) : valid_root (fst (splitroot s)) = true.
Proof.
  destruct s as [|c1 s]; [reflexivity |].
  destruct c1 as [[] [] [] [] [] [] [] []]; try reflexivity.
  destruct s as [|c2 s]; [reflexivity |].
  destruct c2 as [[] [] [] [] [] [] [] []]; try reflexivity.
  destruct s as [|c3 s]; [reflexivity |].
  destruct c3 as [[] [] [] [] [] [] [] []]; reflexivity.
Qed.

Lemma normal_parse_path (s : string) : normal (parse_path s) = true.
Proof.
  unfold normal, parse_path.
  pose proof (splitroot_valid s) as Hr.
  destruct (splitroot s) as [rt rel]. simpl in *. rewrite Hr. simpl.
  apply forallb_forall. intros x Hx.
  apply filter_In in Hx as [Hin Hk].
  unfold component. rewrite Hk. simpl.
  pose proof (split_pieces_no_sep sep rel) as Hs.
  unfold absent in Hs. rewrite forallb_forall in Hs. now apply Hs.
Qed.

Lemma forallb_firstn {A} (f : A -> bool) (n : nat) (l : list A) :
  forallb f l = true -> forallb f (firstn n l) = true.
Proof.
  revert l. induction n as [|n IH]; intros [|a l] H; try reflexivity.
  simpl in *. apply andb_true_iff in H as [Ha Hl].
  now rewrite Ha, IH.
Qed.

Lemma normal_parent (p : PurePath) :
  normal p = true -> normal (parent p) = true.
Proof.
  unfold normal. intros H. apply andb_true_iff in H as [Hr Ht].
  rewrite parent_firstn. simpl. rewrite Hr. simpl.
  now apply forallb_firstn.
Qed.

Lemma normal_truediv (p : PurePath) (k : string) :
  normal p = true -> normal (p / k) = true.
Proof.
  intros H. unfold truediv.
  pose proof (normal_parse_path k) as Hk.
  destruct (String.eqb (root (parse_path k)) ""); [| exact Hk].
  unfold normal in *. simpl.
  apply andb_true_iff in H as [Hr Ht].
  apply andb_true_iff in Hk as [_ Hkt].
  now rewrite Hr, forallb_app, Ht, Hkt.
Qed.

(** The text of joined components starts with a character of the first
    one, which is no separator. *)
Lemma join_head (a : string) (l : list string) :
  component a = true ->
  exists (c : ascii) (r : string),
    PyStr.join "/" (a :: l) = String c r /\ c <> "/"%char.
Proof.
  intros Ha.
  pose proof (component_no_sep a Ha) as Hs.
  pose proof (keep_nonempty a (component_keep a Ha)) as Hne.
  destruct a as [|c a]; [congruence |].
  assert (Hc : c <> "/"%char) by (intros ->; discriminate Hs).
  unfold PyStr.join. destruct l; simpl; eauto.
Qed.

Lemma splitroot_relative (c : ascii) (r : string) :
  c <> "/"%char -> splitroot (String c r) = ("", String c r).
Proof.
  intros Hc. unfold splitroot.
  destruct c as [[] [] [] [] [] [] [] []]; try reflexivity.
  congruence.
Qed.

Lemma splitroot_two_slashes (c : ascii) (r : string) :
  c <> "/"%char ->
  splitroot (String "/" (String "/" (String c r))) = ("//", String c r).
Proof.
  intros Hc. unfold splitroot.
  destruct c as [[] [] [] [] [] [] [] []]; try reflexivity.
  congruence.
Qed.

Lemma pieces_of_join (l : list string) :
  l <> [] -> forallb component l = true ->
  filter keep (PyStr.split sep (PyStr.join "/" l)) = l.
Proof.
  intros Hne H.
  change "/"%string with (String sep "").
  rewrite split_join; [| assumption | now apply forallb_component_no_sep].
  apply forallb_filter_id. now apply forallb_component_keep.
Qed.

(** Parsing the text of a path in normal form gives the path back. *)
Lemma parse_str_normal (p : PurePath) :
  normal p = true -> parse_path (str p) = p.
Proof.
  destruct p as [rt tl]. unfold normal. simpl. intros H.
  apply andb_true_iff in H as [Hr Ht].
  unfold valid_root in Hr.
  apply orb_true_iff in Hr as [Hr | Hr];
    [apply orb_true_iff in Hr as [Hr | Hr] |];
    apply String.eqb_eq in Hr; subst rt.
  - destruct tl as [|a l]; [reflexivity |].
    rewrite str_parsed;
      [| now apply forallb_component_keep | discriminate].
    simpl root; simpl tail. unfold format_parsed_parts.
    change ("" ++ PyStr.join "/" (a :: l))%string
      with (PyStr.join "/" (a :: l)).
    unfold parse_path.
    simpl in Ht. apply andb_true_iff in Ht as [Ha Hl].
    destruct (join_head a l Ha) as (c & r & E & Hc).
    rewrite E, (splitroot_relative c r Hc), <- E.
    rewrite pieces_of_join; [reflexivity | discriminate |].
    simpl. now rewrite Ha, Hl.
  - replace (str (mkPath "/" tl)) with (format_parsed_parts "/" tl)
      by reflexivity.
    now apply parse_path_absolute.
  - destruct tl as [|a l]; [reflexivity |].
    replace (str (mkPath "//" (a :: l)))
      with (String "/" (String "/" (PyStr.join "/" (a :: l))))
      by reflexivity.
    unfold parse_path.
    simpl in Ht. apply andb_true_iff in Ht as [Ha Hl].
    destruct (join_head a l Ha) as (c & r & E & Hc).
    rewrite E, (splitroot_two_slashes c r Hc), <- E.
    rewrite pieces_of_join; [reflexivity | discriminate |].
    simpl. now rewrite Ha, Hl.
Qed.

Lemma normal_script_file (file : string) : normal (script_file file) = true.
Proof. apply normal_parse_path. Qed.

Lemma normal_project_root (file : string) :
  normal (project_root file) = true.
Proof.
  unfold project_root. apply normal_parent, normal_parent, normal_script_file.
Qed.

End NormalForm.

Section TextOfArguments.
Local Open Scope path_scope.

Lemma command_by_script_file (f g : string) :
  script_file f = script_file g -> command f = command g.
Proof.
  intros H. unfold command, config, generated, spec, project_root.
  now rewrite H.
Qed.

(** X6. Nothing is lost between the paths and their text: the text of
    the script's path, of the project root and of each of the three
    arguments parses back to that very path.  So the command does not
    depend on how [__file__] is spelt: a location and its normal
    spelling (no doubled "/", no "." component, no "/" at the end) give
    the same command. *)
Theorem arguments_parse_back (file : string) :
  Path (str (script_file file)) = script_file file
  /\ Path (str (project_root file)) = project_root file
  /\ Path (str (spec file)) = spec file
  /\ Path (str (generated file)) = generated file
  /\ Path (str (config file)) = config file
  /\ command (str (script_file file)) = command file.
Proof.
  assert (Hs : Path (str (script_file file)) = script_file file)
    by apply parse_str_normal, normal_script_file.
  pose proof (normal_project_root file) as Hn.
  split; [exact Hs |].
  split; [now apply parse_str_normal |].
  split; [apply parse_str_normal; unfold spec; now apply normal_truediv |].
  split;
    [apply parse_str_normal; unfold generated;
     now repeat apply normal_truediv |].
  split;
    [apply parse_str_normal; unfold config, generated;
     now repeat apply normal_truediv |].
  now apply command_by_script_file.
Qed.

Lemma isabs_root (s : string) :
  isabs s = negb (String.eqb (fst (splitroot s)) "").
Proof.
  unfold isabs.
  destruct s as [|c1 s]; [reflexivity |].
  destruct c1 as [[] [] [] [] [] [] [] []]; try reflexivity.
  destruct s as [|c2 s]; [reflexivity |].
  destruct c2 as [[] [] [] [] [] [] [] []]; try reflexivity.
  destruct s as [|c3 s]; [reflexivity |].
  destruct c3 as [[] [] [] [] [] [] [] []]; reflexivity.
Qed.

Lemma isabs_str (p : PurePath) :
  normal p = true -> isabs (str p) = negb (String.eqb (root p) "").
Proof.
  destruct p as [rt tl]. unfold normal. simpl. intros H.
  apply andb_true_iff in H as [Hr Ht].
  unfold valid_root in Hr.
  apply orb_true_iff in Hr as [Hr | Hr];
    [apply orb_true_iff in Hr as [Hr | Hr] |];
    apply String.eqb_eq in Hr; subst rt.
  - destruct tl as [|a l]; [reflexivity |].
    rewrite str_parsed;
      [| now apply forallb_component_keep | discriminate].
    simpl in Ht. apply andb_true_iff in Ht as [Ha _].
    destruct (join_head a l Ha) as (c & r & E & Hc).
    simpl root; simpl tail. unfold format_parsed_parts.
    change ("" ++ PyStr.join "/" (a :: l))%string
      with (PyStr.join "/" (a :: l)).
    rewrite E. unfold isabs.
    change (String.prefix "/" (String c r))
      with (if ascii_dec "/" c then String.prefix "" r else false).
    destruct (ascii_dec "/" c) as [<- | _]; [congruence | reflexivity].
  - unfold isabs, str, format_parsed_parts, PyStr.join. simpl.
    now destruct (String.concat "/" tl).
  - unfold isabs, str, format_parsed_parts, PyStr.join. simpl.
    reflexivity.
Qed.

Lemma root_project_root (file : string) :
  root (project_root file) = root (Path file).
Proof. now rewrite project_root_two_levels_up. Qed.

(** X7. The arguments are absolute file names exactly when [__file__]
    is one: an absolute location gives arguments that do not depend on
    the directory the generator is started in, a relative one gives
    relative arguments. *)
Theorem arguments_absolute_iff_location (file : string) :
  isabs (str (spec file)) = isabs file
  /\ isabs (str (generated file)) = isabs file
  /\ isabs (str (config file)) = isabs file.
Proof.
  pose proof (normal_project_root file) as Hn.
  assert (Hroot : negb (String.eqb (root (project_root file)) "")
                  = isabs file).
  { rewrite root_project_root, isabs_root. unfold Path, parse_path.
    now destruct (splitroot file). }
  repeat split.
  - rewrite isabs_str by (unfold spec; now apply normal_truediv).
    now rewrite spec_parts.
  - rewrite isabs_str
      by (unfold generated; now repeat apply normal_truediv).
    now rewrite generated_parts.
  - rewrite isabs_str
      by (unfold config, generated; now repeat apply normal_truediv).
    now rewrite config_parts.
Qed.

End TextOfArguments.

(** ** Where the characters of the command come from *)

Section Characters.
Local Open Scope path_scope.

Lemma contains_append_false (d : ascii) (a b : string) :
  PyStr.contains d (a ++ b)%string = false ->
  PyStr.contains d a = false /\ PyStr.contains d b = false.
Proof. rewrite contains_append. apply orb_false_iff. Qed.

Lemma absent_split (d c : ascii) (s : string) :
  PyStr.contains d s = false -> absent d (PyStr.split c s) = true.
Proof.
  unfold absent, PyStr.contains, PyStr.chars.
  induction s as [|x s IH]; [reflexivity |].
  simpl. intros H. apply orb_false_iff in H as [Hx Hs].
  specialize (IH Hs).
  destruct (Ascii.eqb x c).
  - simpl. exact IH.
  - destruct (PyStr.split c s) as [|w ws]; simpl.
    + now rewrite Hx.
    + simpl in IH. now rewrite Hx.
Qed.

(** What [splitroot] leaves is the end of the name. *)
Lemma splitroot_suffix (s : string) :
  exists pre : string, s = (pre ++ snd (splitroot s))%string.
Proof.
  destruct s as [|c1 s]; [now exists "" |].
  destruct c1 as [[] [] [] [] [] [] [] []];
    try (now exists "").
  destruct s as [|c2 s]; [now exists "/" |].
  destruct c2 as [[] [] [] [] [] [] [] []];
    try (now exists "/").
  destruct s as [|c3 s]; [now exists "//" |].
  destruct c3 as [[] [] [] [] [] [] [] []];
    try (now exists "//").
  now exists "/".
Qed.

Lemma absent_filter (d : ascii) (f : string -> bool) (l : list string) :
  absent d l = true -> absent d (filter f l) = true.
Proof.
  unfold absent. induction l as [|a l IH]; [reflexivity |].
  simpl. intros H. apply andb_true_iff in H as [Ha Hl].
  destruct (f a); simpl; [rewrite Ha |]; now apply IH.
Qed.

Lemma absent_tail_path (d : ascii) (file : string) :
  PyStr.contains d file = false -> absent d (tail (Path file)) = true.
Proof.
  intros H. unfold Path, parse_path.
  destruct (splitroot_suffix file) as [pre E].
  destruct (splitroot file) as [rt rel]. simpl in *.
  rewrite E in H. apply contains_append_false in H as [_ H].
  now apply absent_filter, absent_split.
Qed.

Lemma absent_project_root (d : ascii) (file : string) :
  PyStr.contains d file = false ->
  absent d (tail (project_root file)) = true.
Proof.
  intros H. rewrite project_root_two_levels_up. simpl.
  apply forallb_firstn. now apply absent_tail_path.
Qed.

Lemma contains_join (d : ascii) (l : list string) :
  PyStr.contains d "/" = false -> absent d l = true ->
  PyStr.contains d (PyStr.join "/" l) = false.
Proof.
  intros Hd. unfold absent, PyStr.join.
  induction l as [|a l IH]; [reflexivity |].
  intros H. simpl in H. apply andb_true_iff in H as [Ha Hl].
  apply negb_true_iff in Ha.
  destruct l as [|b l]; [exact Ha |].
  change (String.concat "/" (a :: b :: l))
    with (a ++ "/" ++ String.concat "/" (b :: l))%string.
  rewrite !contains_append, Ha, Hd. simpl. now apply IH.
Qed.

Lemma contains_valid_root (d : ascii) (rt : string) :
  valid_root rt = true -> PyStr.contains d "/" = false ->
  PyStr.contains d rt = false.
Proof.
  unfold valid_root. intros Hr Hd.
  apply orb_true_iff in Hr as [Hr | Hr];
    [apply orb_true_iff in Hr as [Hr | Hr] |];
    apply String.eqb_eq in Hr; subst rt.
  - reflexivity.
  - exact Hd.
  - change "//"%string with ("/" ++ "/")%string.
    now rewrite contains_append, Hd.
Qed.

Lemma contains_format (d : ascii) (rt : string) (tl : list string) :
  valid_root rt = true -> PyStr.contains d "/" = false ->
  absent d tl = true ->
  PyStr.contains d (format_parsed_parts rt tl) = false.
Proof.
  intros Hr Hd Ht. unfold format_parsed_parts.
  now rewrite contains_append, contains_valid_root, contains_join.
Qed.

Lemma absent_app (d : ascii) (l1 l2 : list string) :
  absent d (l1 ++ l2) = absent d l1 && absent d l2.
Proof. unfold absent. apply forallb_app. Qed.

(** A character that is neither "/" nor in the fixed names nor in
    [__file__] is in none of the arguments. *)
Lemma arguments_free_of (d : ascii) (file : string) :
  PyStr.contains d "/" = false ->
  absent d ["openapi.json"; "src"; "api"; "generated"; "config.json"]
  = true ->
  PyStr.contains d file = false ->
  PyStr.contains d (str (spec file)) = false
  /\ PyStr.contains d (str (generated file)) = false
  /\ PyStr.contains d (str (config file)) = false.
Proof.
  intros Hd Hn Hf.
  pose proof (absent_project_root d file Hf) as Hr.
  pose proof (normal_project_root file) as Hnorm.
  unfold normal in Hnorm. apply andb_true_iff in Hnorm as [Hv _].
  unfold absent in Hn. simpl in Hn.
  repeat (apply andb_true_iff in Hn as [? Hn]).
  rewrite spec_parts, generated_parts, config_parts.
  change ["src"; "api"; "generated"] with (["src"; "api"] ++ ["generated"]).
  change ["src"; "api"; "generated"; "config.json"]
    with (["src"; "api"; "generated"] ++ ["config.json"]).
  rewrite !app_assoc, !str_snoc by discriminate.
  repeat split; apply contains_format; try assumption;
    rewrite ?absent_app, Hr; unfold absent; simpl;
    repeat (apply andb_true_iff; split); auto.
Qed.

End Characters.

Section CommandText.
Local Open Scope path_scope.

Lemma contains_subset (d : ascii) (small big : string) :
  forallb (fun c => PyStr.contains c big) (PyStr.chars small) = true ->
  PyStr.contains d big = false -> PyStr.contains d small = false.
Proof.
  intros Hsub Hbig.
  destruct (PyStr.contains d small) eqn:E; [| reflexivity].
  unfold PyStr.contains in E. apply existsb_exists in E as (c & Hin & Hc).
  apply Ascii.eqb_eq in Hc. subst c.
  rewrite forallb_forall in Hsub. rewrite (Hsub d Hin) in Hbig.
  discriminate.
Qed.

(** X8. Every character of the command comes from [__file__] or from
    the fixed text (the command of the location "/" holds all of the
    fixed text): a character that is in neither is not in the command.
    The script adds no quote, no backslash, no other character of its
    own to what the location brings. *)
Theorem command_characters_come_from_location (d : ascii) (file : string) :
  PyStr.contains d (command "/") = false ->
  PyStr.contains d file = false ->
  PyStr.contains d (command file) = false.
Proof.
  intros Hfixed Hfile.
  assert (Hpiece : forall piece : string,
             forallb (fun c => PyStr.contains c (command "/"))
                     (PyStr.chars piece) = true ->
             PyStr.contains d piece = false)
    by (intros piece Hsub; now apply (contains_subset d piece (command "/"))).
  destruct (arguments_free_of d file) as (Hs & Hg & Hc).
  - now apply Hpiece.
  - unfold absent. simpl.
    rewrite !Hpiece by reflexivity. reflexivity.
  - exact Hfile.
  - unfold command.
    rewrite !contains_append, Hs, Hg, Hc.
    rewrite !Hpiece by reflexivity. reflexivity.
Qed.

Lemma command_characters_come_from_location_witness :
  PyStr.contains "039" (command "/srv/my app/scripts/gen-api.py") = false.
Proof.
  apply (command_characters_come_from_location
           "039" "/srv/my app/scripts/gen-api.py");
    reflexivity.
Defined.

(** X9. When [__file__] holds no space, cutting the command at its
    spaces gives exactly eleven words: the launcher, the generator, the
    action, and the four options each followed by its value, the three
    paths being one word each. *)
Theorem command_words_without_space (file : string) :
  PyStr.contains " " file = false ->
  PyStr.split " " (command file)
  = ["npx"; "@openapitools/openapi-generator-cli"; "generate";
     "-g"; "typescript-fetch";
     "-i"; str (spec file);
     "-o"; str (generated file);
     "-c"; str (config file)].
Proof.
  intros Hfile.
  destruct (arguments_free_of " " file) as (Hs & Hg & Hc);
    [reflexivity | reflexivity | exact Hfile |].
  unfold command.
  change (PyStr.split " "
            ("npx" ++ String " "
               ("@openapitools/openapi-generator-cli" ++ String " "
                  ("generate" ++ String " "
                     ("-g" ++ String " "
                        ("typescript-fetch" ++ String " "
                           ("-i" ++ String " "
                              (str (spec file) ++ String " "
                                 ("-o" ++ String " "
                                    (str (generated file) ++ String " "
                                       ("-c" ++ String " "
                                          (str (config file))))))))))))%string
          = ["npx"; "@openapitools/openapi-generator-cli"; "generate";
             "-g"; "typescript-fetch";
             "-i"; str (spec file);
             "-o"; str (generated file);
             "-c"; str (config file)]).
  rewrite !split_first_piece by (reflexivity || assumption).
  now rewrite split_no_sep.
Qed.

Lemma command_words_without_space_witness :
  PyStr.split " " (command "/srv/app/scripts/gen-api.py")
  = ["npx"; "@openapitools/openapi-generator-cli"; "generate";
     "-g"; "typescript-fetch";
     "-i"; "/srv/app/openapi.json";
     "-o"; "/srv/app/src/api/generated";
     "-c"; "/srv/app/src/api/generated/config.json"].
Proof.
  apply (command_words_without_space "/srv/app/scripts/gen-api.py").
  reflexivity.
Defined.

End CommandText.

(** * The script in its process *)

Section ProcessFacts.
Import Process Script.

Ltac flatten_effects :=
  repeat (progress (simpl; rewrite <- ?app_assoc, ?app_nil_r));
  reflexivity.

Lemma write_chunks_cases (accept : nat -> string -> option nat)
    (chunks : list string) :
  forall (st : nat) (eff : list effect),
    (exists st' : nat,
        write_chunks accept chunks st eff
        = (None, st', eff ++ map Wrote chunks))
    \/ (exists (pre : list string) (c : string) (post : list string)
               (st' : nat),
           chunks = pre ++ c :: post
           /\ write_chunks accept chunks st eff
              = (Some c, st', eff ++ map Wrote pre ++ [Refused c])).
Proof.
  induction chunks as [|c chunks IH]; intros st eff; simpl.
  - left. exists st. now rewrite app_nil_r.
  - destruct (accept st c) as [st1|].
    + destruct (IH st1 (eff ++ [Wrote c]))
        as [[st' E] | (pre & c' & post & st' & Ec & E)].
      * left. exists st'. rewrite E. now rewrite <- app_assoc.
      * right. exists (c :: pre), c', post, st'.
        split; [now rewrite Ec |].
        rewrite E. simpl. now rewrite <- !app_assoc.
    + right. exists [], c, chunks, st. split; reflexivity.
Qed.

(** The three ways a run can go: the encoder refuses the command line;
    a write fails during [print]; [print] returns, [os.system] is
    called, and what the stream held is flushed at the exit. *)
Lemma run_cases (w : World) :
  (w_stream w (w_environ w) (command (dunder_file w)) = None
   /\ run w
      = mkOutcome (Raised UnicodeEncodeError)
          [CallPrint (command (dunder_file w))]
          [Complained UnicodeEncodeError] 1)
  \/ (exists (p : plan) (pre : list string) (c : string)
             (fl : list effect) (code : Z),
         w_stream w (w_environ w) (command (dunder_file w)) = Some p
         /\ run w
            = mkOutcome (Raised OSError)
                [CallPrint (command (dunder_file w))]
                (map Wrote pre ++ [Refused c; Complained OSError] ++ fl)
                code
         /\ ((fl = [] /\ code = 1%Z)
             \/ (fl = [Wrote c] /\ code = 1%Z)
             \/ (fl = [Refused c; Complained OSError] /\ code = 120%Z)))
  \/ (exists (p : plan) (ch : option child) (fl : list effect) (code : Z),
         w_stream w (w_environ w) (command (dunder_file w)) = Some p
         /\ run w
            = mkOutcome (Returned tt)
                [CallPrint (command (dunder_file w));
                 CallSystem (command (dunder_file w))]
                (map Wrote (now p)
                   ++ shell_effects (command (dunder_file w)) ch ++ fl)
                code
         /\ ((held p = "" /\ fl = [] /\ code = 0%Z)
             \/ (held p <> "" /\ fl = [Wrote (held p)] /\ code = 0%Z)
             \/ (held p <> ""
                 /\ fl = [Refused (held p); Complained OSError]
                 /\ code = 120%Z))).
Proof.
  unfold run, main, Process.bind, __file__, Process.print, start.
  simpl.
  destruct (w_stream w (w_environ w) (command (dunder_file w)))
    as [p|] eqn:Es; [| left; split; reflexivity].
  right.
  assert (Hfirst : (match now p with
                    | [] => []
                    | _ :: _ => @nil string
                    end ++ now p) = now p) by now destruct (now p).
  rewrite Hfirst.
  assert (Hkept : (match now p with
                   | [] => ""
                   | _ :: _ => ""
                   end ++ held p)%string = held p) by now destruct (now p).
  rewrite Hkept.
  destruct (write_chunks_cases (w_accept w) (now p) (w_far w) [])
    as [[st' E] | (pre & c & post & st' & Ec & E)]; rewrite E; simpl.
  - right. unfold os_system. simpl.
    destruct (w_subordinate w (w_cwd w) (w_environ w)
                (command (dunder_file w)) st') as [ch|] eqn:Ech;
      unfold finalize; simpl;
      destruct (String.eqb_spec (held p) "") as [Eh | Eh].
    + exists p, (Some ch), [], 0%Z. split; [reflexivity |].
      split; [flatten_effects | auto].
    + destruct (w_accept w (far_after ch) (held p)).
      * exists p, (Some ch), [Wrote (held p)], 0%Z.
        split; [reflexivity |]. split; [flatten_effects | auto].
      * exists p, (Some ch), [Refused (held p); Complained OSError], 120%Z.
        split; [reflexivity |]. split; [flatten_effects | auto 6].
    + exists p, None, [], 0%Z. split; [reflexivity |].
      split; [flatten_effects | auto].
    + destruct (w_accept w st' (held p)).
      * exists p, None, [Wrote (held p)], 0%Z.
        split; [reflexivity |]. split; [flatten_effects | auto].
      * exists p, None, [Refused (held p); Complained OSError], 120%Z.
        split; [reflexivity |]. split; [flatten_effects | auto 6].
  - left. unfold finalize. simpl.
    destruct (String.eqb_spec (if keeps_failed p then c else "") "")
      as [Ek | Ek].
    + exists p, pre, c, [], 1%Z. split; [reflexivity |].
      split; [flatten_effects | auto].
    + destruct (keeps_failed p); [| congruence].
      destruct (w_accept w st' c).
      * exists p, pre, c, [Wrote c], 1%Z. split; [reflexivity |].
        split; [flatten_effects | auto].
      * exists p, pre, c, [Refused c; Complained OSError], 120%Z.
        split; [reflexivity |].
        split; [flatten_effects | auto 6].
Qed.

End ProcessFacts.

Section Observations.
Import Process.

Lemma spawns_app (a b : list effect) : spawns (a ++ b) = spawns a ++ spawns b.
Proof.
  induction a as [|e a IH]; [reflexivity |].
  destruct e; simpl; now rewrite IH.
Qed.

Lemma writes_app (a b : list effect) : writes (a ++ b) = writes a ++ writes b.
Proof.
  induction a as [|e a IH]; [reflexivity |].
  destruct e; simpl; now rewrite IH.
Qed.

Lemma spawns_map_Wrote (l : list string) : spawns (map Wrote l) = [].
Proof. induction l; [reflexivity | exact IHl]. Qed.

Lemma spawns_map_ChildWrote (l : list string) :
  spawns (map ChildWrote l) = [].
Proof. induction l; [reflexivity | exact IHl]. Qed.

Lemma writes_map_Wrote (l : list string) : writes (map Wrote l) = l.
Proof. induction l as [|x l IH]; [reflexivity | simpl; now rewrite IH]. Qed.

Lemma writes_map_ChildWrote (l : list string) :
  writes (map ChildWrote l) = [].
Proof. induction l; [reflexivity | exact IHl]. Qed.

Lemma failures_map_Wrote (l : list string) :
  existsb is_failure (map Wrote l) = false.
Proof. induction l; [reflexivity | exact IHl]. Qed.

Lemma failures_map_ChildWrote (l : list string) :
  existsb is_failure (map ChildWrote l) = false.
Proof. induction l; [reflexivity | exact IHl]. Qed.

(** A call of [os.system] starts at most one shell, for its command,
    writes nothing for the script and is no failure of the script. *)
Lemma spawns_shell_effects (cmd : string) (c : option child) :
  spawns (shell_effects cmd c)
  = match c with Some _ => [cmd] | None => [] end.
Proof.
  destruct c as [ch|]; [| reflexivity].
  unfold shell_effects. rewrite !spawns_app, spawns_map_ChildWrote.
  reflexivity.
Qed.

Lemma writes_shell_effects (cmd : string) (c : option child) :
  writes (shell_effects cmd c) = [].
Proof.
  destruct c as [ch|]; [| reflexivity].
  unfold shell_effects. rewrite !writes_app, writes_map_ChildWrote.
  reflexivity.
Qed.

Lemma failures_shell_effects (cmd : string) (c : option child) :
  existsb is_failure (shell_effects cmd c) = false.
Proof.
  destruct c as [ch|]; [| reflexivity].
  unfold shell_effects. rewrite !existsb_app, failures_map_ChildWrote.
  reflexivity.
Qed.

End Observations.

(** ** What a run does, for every world *)

Section ScriptInProcess.
Import Process Script Instances.





(** C4. [print] is the first call of every run and [os.system], when
    it is reached, the second, with the same command.  What the stream
    hands to the descriptor during the call is written before the shell
    is started; what it holds is written, if at all, after the shell has
    been waited for. *)
Theorem print_called_before_execution (w : World) :
  (calls_of (run w) = [CallPrint (command (dunder_file w))]
   /\ spawns (effects_of (run w)) = [])
  \/ (calls_of (run w)
      = [CallPrint (command (dunder_file w));
         CallSystem (command (dunder_file w))]
      /\ exists (p : plan) (ch : option child) (post : list effect),
           w_stream w (w_environ w) (command (dunder_file w)) = Some p
           /\ effects_of (run w)
              = map Wrote (now p)
                  ++ shell_effects (command (dunder_file w)) ch ++ post
           /\ ((held p = "" /\ post = [])
               \/ (held p <> ""
                   /\ (post = [Wrote (held p)]
                       \/ post = [Refused (held p); Complained OSError])))).
Proof.
  destruct (run_cases w)
    as [[_ E] | [(p & pre & c & fl & code & _ & E & Hfl)
                | (p & ch & fl & code & Es & E & Hfl)]];
    rewrite E; simpl.
  - left. split; reflexivity.
  - left. split; [reflexivity |].
    rewrite spawns_app, spawns_map_Wrote. simpl.
    destruct Hfl as [[-> _] | [[-> _] | [-> _]]]; reflexivity.
  - right. split; [reflexivity |].
    exists p, ch, fl.
    split; [exact Es |]. split; [reflexivity |].
    destruct Hfl as [(Eh & -> & _) | [(Eh & -> & _) | (Eh & -> & _)]];
      auto.
Qed.

(** C4 as the specification states it does not hold.  On a pipe the
    line is held by the stream: the shell is started, the child
    writes, the shell is waited for, and only then does the command
    line reach standard output. *)
Lemma command_written_after_execution :
  effects_of (run (started takes_all 0
                     (chatty (Exit 0) ("generated" ++ newline))))
  = [Spawned (command "/srv/app/scripts/gen-api.py");
     ChildWrote ("generated" ++ newline);
     Reaped 0;
     Wrote (command "/srv/app/scripts/gen-api.py" ++ newline)].
Proof. vm_compute. reflexivity. Qed.

(** C7. The arguments of the script change nothing in a run.  With
    another environment [__file__] and the command are the same, and
    the calls are [print] of that command and, unless [print] raised,
    [os.system] of it: whatever is executed is that command. *)
Theorem command_unaffected_by_arguments_and_environment
    (w : World) (args : list string) (vars : list (string * string)) :
  run (with_argv w args) = run w
  /\ dunder_file (with_environ w vars) = dunder_file w
  /\ (calls_of (run (with_environ w vars))
      = [CallPrint (command (dunder_file w))]
      \/ calls_of (run (with_environ w vars))
         = [CallPrint (command (dunder_file w));
            CallSystem (command (dunder_file w))])
  /\ (forall c : string,
         In c (spawns (effects_of (run (with_environ w vars)))) ->
         c = command (dunder_file w)).
Proof.
  split; [reflexivity |]. split; [reflexivity |].
  change (command (dunder_file w))
    with (command (dunder_file (with_environ w vars))).
  destruct (run_cases (with_environ w vars))
    as [[_ E] | [(p & pre & c & fl & code & _ & E & Hfl)
                | (p & ch & fl & code & _ & E & Hfl)]];
    rewrite E; simpl.
  - split; [auto | intros c []].
  - split; [auto |].
    rewrite spawns_app, spawns_map_Wrote. simpl.
    destruct Hfl as [[-> _] | [[-> _] | [-> _]]]; intros c0 [].
  - split; [auto |].
    rewrite spawns_app, spawns_map_Wrote. simpl.
    rewrite spawns_app, spawns_shell_effects.
    destruct Hfl as [(_ & -> & _) | [(_ & -> & _) | (_ & -> & _)]];
      destruct ch; simpl; intros c0 H;
      try (destruct H as [<- | []]; reflexivity); destruct H.
Qed.

(** C7 as the specification states it does not hold.  Standard output
    is a pipe whose reader has left.  With an empty environment the
    line is held, the command is executed (and the flush at the exit
    fails); with PYTHONUNBUFFERED=1 and nothing else changed, [print]
    raises and nothing is executed. *)
Lemma environment_changes_execution :
  spawns (effects_of (run (started takes_none 0 (silent (Exit 0)))))
  = [command "/srv/app/scripts/gen-api.py"]
  /\ spawns (effects_of
               (run (with_environ (started takes_none 0 (silent (Exit 0)))
                                  [("PYTHONUNBUFFERED", "1")])))
     = [].
Proof. split; vm_compute; reflexivity. Qed.

(** C8. A run calls [os.system] at most once: not at all when [print]
    raises, exactly once, with the command it built, when [print]
    returns; there is no second attempt.  The call starts one shell,
    or none when no process can be created, and waits for it: the
    start is followed by what the child writes and by the end of the
    wait, and after the call only the flush of the stream at the exit
    happens. *)
Theorem at_most_one_synchronous_invocation (w : World) :
  (exists e : exn,
      result_of (run w) = Raised e
      /\ calls_of (run w) = [CallPrint (command (dunder_file w))]
      /\ spawns (effects_of (run w)) = [])
  \/ (result_of (run w) = Returned tt
      /\ calls_of (run w)
         = [CallPrint (command (dunder_file w));
            CallSystem (command (dunder_file w))]
      /\ exists (pre : list effect) (ch : option child)
                (post : list effect),
           effects_of (run w)
           = pre ++ shell_effects (command (dunder_file w)) ch ++ post
           /\ spawns (effects_of (run w))
              = match ch with
                | Some _ => [command (dunder_file w)]
                | None => []
                end
           /\ spawns pre = []
           /\ (post = []
               \/ exists h : string,
                    post = [Wrote h]
                    \/ post = [Refused h; Complained OSError])).
Proof.
  destruct (run_cases w)
    as [[_ E] | [(p & pre & c & fl & code & _ & E & Hfl)
                | (p & ch & fl & code & _ & E & Hfl)]];
    rewrite E; simpl.
  - left. exists UnicodeEncodeError. repeat split.
  - left. exists OSError. split; [reflexivity |]. split; [reflexivity |].
    rewrite spawns_app, spawns_map_Wrote. simpl.
    destruct Hfl as [[-> _] | [[-> _] | [-> _]]]; reflexivity.
  - right. split; [reflexivity |]. split; [reflexivity |].
    exists (map Wrote (now p)), ch, fl.
    split; [reflexivity |].
    split.
    + rewrite spawns_app, spawns_map_Wrote. simpl.
      rewrite spawns_app, spawns_shell_effects.
      destruct Hfl as [(_ & -> & _) | [(_ & -> & _) | (_ & -> & _)]];
        destruct ch; reflexivity.
    + split; [apply spawns_map_Wrote |].
      destruct Hfl as [(_ & -> & _) | [(_ & -> & _) | (_ & -> & _)]];
        [left; reflexivity | right; exists (held p); auto
        | right; exists (held p); auto].
Qed.

(** C8 as the specification states it does not hold.  Unbuffered, on
    a pipe whose reader has left, [print] raises: the run starts no
    shell and ends with status 1. *)
Lemma no_invocation_when_print_fails :
  spawns (effects_of
            (run (with_environ (started takes_none 0 (silent (Exit 0)))
                               [("PYTHONUNBUFFERED", "1")])))
  = []
  /\ exit_of (run (with_environ (started takes_none 0 (silent (Exit 0)))
                                [("PYTHONUNBUFFERED", "1")]))
     = 1%Z.
Proof. split; vm_compute; reflexivity. Qed.

End ScriptInProcess.

(** ** The start: [__file__] and the working directory *)

Section Start.
Import Launch Process Script Instances.

Lemma splitroot_single (f : string) :
  fst (splitroot f) = "/" -> f = String "/" (snd (splitroot f)).
Proof.
  intros H.
  destruct f as [|c1 f]; [discriminate H |].
  destruct c1 as [[] [] [] [] [] [] [] []]; try discriminate H.
  destruct f as [|c2 f]; [reflexivity |].
  destruct c2 as [[] [] [] [] [] [] [] []]; try reflexivity.
  destruct f as [|c3 f]; [discriminate H |].
  destruct c3 as [[] [] [] [] [] [] [] []];
    try discriminate H.
  reflexivity.
Qed.

(** Where nothing goes up, the kernel's walk keeps what pathlib
    keeps. *)
Lemma walk_downward (pieces : list string) :
  forall back : list string,
    forallb (fun x => negb (String.eqb x "..")) (filter keep pieces) = true ->
    walk back pieces = rev back ++ filter keep pieces.
Proof.
  induction pieces as [|p rest IH]; intros back H; simpl.
  - now rewrite app_nil_r.
  - simpl in H. destruct (String.eqb_spec p "..") as [-> | Hp].
    + discriminate H.
    + destruct (keep p); simpl in H.
      * rewrite IH by (now destruct (String.eqb p ".."); simpl in H).
        simpl. now rewrite <- app_assoc.
      * now apply IH.
Qed.

(** For a name with the root "/" and no ".." the components pathlib
    has are the entries the kernel walks. *)
Lemma tail_is_location (f : string) :
  root (Path f) = "/" -> downward (Path f) = true ->
  tail (Path f) = location f.
Proof.
  unfold Path, parse_path, downward, location.
  pose proof (splitroot_single f) as Hf.
  destruct (splitroot f) as [rt rel]. simpl in *.
  intros Hr Hd. rewrite (Hf Hr).
  change (PyStr.split sep (String "/" rel))
    with ("" :: PyStr.split sep rel).
  change (walk [] ("" :: PyStr.split sep rel))
    with (walk [] (PyStr.split sep rel)).
  now rewrite walk_downward.
Qed.

Lemma first_call (w : World) :
  nth_error (calls_of (run w)) 0
  = Some (CallPrint (command (dunder_file w))).
Proof.
  destruct (run_cases w)
    as [[_ E] | [(p & pre & c & fl & code & _ & E & _)
                | (p & ch & fl & code & _ & E & _)]];
    now rewrite E.
Qed.

(** C5. Two runs of the script from the same location build the same
    three paths and the same command, and print that command, whatever
    their working directories are, provided that in both [__file__]
    (the script path as given when absolute, else the working directory,
    a "/" and the script path) has the root "/" and no ".." component.
    A run started through an absolute path has the same [__file__] in
    every working directory. *)
Theorem paths_depend_on_location_when_normal (w1 w2 : World) :
  root (Path (dunder_file w1)) = "/" ->
  root (Path (dunder_file w2)) = "/" ->
  downward (Path (dunder_file w1)) = true ->
  downward (Path (dunder_file w2)) = true ->
  location (dunder_file w1) = location (dunder_file w2) ->
  spec (dunder_file w1) = spec (dunder_file w2)
  /\ generated (dunder_file w1) = generated (dunder_file w2)
  /\ config (dunder_file w1) = config (dunder_file w2)
  /\ command (dunder_file w1) = command (dunder_file w2)
  /\ nth_error (calls_of (run w1)) 0 = nth_error (calls_of (run w2)) 0
  /\ (forall dir : string,
         isabs (w_script w1) = true ->
         dunder_file (with_cwd w1 dir) = dunder_file w1).
Proof.
  intros Hr1 Hr2 Hd1 Hd2 Hloc.
  assert (Hpath : script_file (dunder_file w1) = script_file (dunder_file w2)).
  { unfold script_file.
    pose proof (tail_is_location _ Hr1 Hd1) as H1.
    pose proof (tail_is_location _ Hr2 Hd2) as H2.
    destruct (Path (dunder_file w1)) as [r1 t1].
    destruct (Path (dunder_file w2)) as [r2 t2].
    simpl in *. congruence. }
  assert (Hcmd : command (dunder_file w1) = command (dunder_file w2))
    by now apply command_by_script_file.
  unfold config, generated, spec, project_root.
  rewrite Hpath. repeat split; try assumption.
  - now rewrite !first_call, Hcmd.
  - intros dir Habs. unfold dunder_file, abspath. simpl. now rewrite Habs.
Qed.

Lemma paths_depend_on_location_when_normal_witness :
  command (dunder_file (launched "/srv" "app/scripts/gen-api.py"))
  = command (dunder_file
               (launched "/var" "/srv/app/./scripts//gen-api.py")).
Proof.
  apply (paths_depend_on_location_when_normal
           (launched "/srv" "app/scripts/gen-api.py")
           (launched "/var" "/srv/app/./scripts//gen-api.py"));
    reflexivity.
Defined.

(** C5 as the specification states it does not hold.  The file
    /srv/app/scripts/gen-api.py started as app/scripts/gen-api.py
    in /srv and as srv/app/scripts/gen-api.py in / gives two commands
    (the second has the paths under "//srv").  Started as
    sub/../gen-api.py in its own directory, it takes
    /srv/app/scripts/sub for the project root and names a spec file
    in another directory than when started as scripts/gen-api.py in
    /srv/app. *)
Lemma paths_depend_on_working_directory :
  location (dunder_file (launched "/srv" "app/scripts/gen-api.py"))
  = location (dunder_file (launched "/" "srv/app/scripts/gen-api.py"))
  /\ command (dunder_file (launched "/srv" "app/scripts/gen-api.py"))
     <> command (dunder_file (launched "/" "srv/app/scripts/gen-api.py"))
  /\ calls_of (run (launched "/srv" "app/scripts/gen-api.py"))
     <> calls_of (run (launched "/" "srv/app/scripts/gen-api.py"))
  /\ location (dunder_file
                 (launched "/srv/app/scripts" "sub/../gen-api.py"))
     = location (dunder_file (launched "/srv/app" "scripts/gen-api.py"))
  /\ location (str (spec (dunder_file
                 (launched "/srv/app/scripts" "sub/../gen-api.py"))))
     <> location (str (spec (dunder_file
                 (launched "/srv/app" "scripts/gen-api.py")))).
Proof.
  split; [reflexivity |].
  split; [vm_compute; discriminate |].
  split; [vm_compute; discriminate |].
  split; [reflexivity |].
  vm_compute; discriminate.
Qed.

End Start.

(** ** The plain run and the process *)

Section PlainRun.
Import Process.

(** The runs of [Runtime] are those of the process on a standard output
    that takes the whole line at the call (a terminal that is there, or
    an unbuffered stream whose far end takes the line): the same text
    is written, the same command executed, the status is 0. *)
Lemma plain_run_is_a_write_through_run
    (w : World) (env : Env) (p : plan) (st : nat) :
  Runtime.dunder_file env = Script.dunder_file w ->
  w_stream w (w_environ w) (command (Script.dunder_file w)) = Some p ->
  now p = [(command (Script.dunder_file w) ++ newline)%string] ->
  held p = "" ->
  w_accept w (w_far w) (command (Script.dunder_file w) ++ newline) = Some st ->
  w_subordinate w (w_cwd w) (w_environ w) (command (Script.dunder_file w)) st
  <> None ->
  writes (effects_of (Script.run w)) = printed (trace env)
  /\ spawns (effects_of (Script.run w)) = spawned (trace env)
  /\ exit_of (Script.run w) = script_exit env.
Proof.
  intros Hfile Hs Hnow Hheld Hacc Hsub.
  rewrite trace_run, Hfile. unfold script_exit. rewrite run_returns.
  unfold Script.run, Script.main, Process.bind, Script.__file__,
    Process.print, Script.start.
  cbv beta iota zeta. rewrite Hs. cbv beta iota zeta. rewrite Hnow.
  cbn [pending far calls effects String.eqb app write_chunks].
  rewrite Hacc.
  cbn [pending far calls effects String.eqb app write_chunks os_system
       Process.ret].
  unfold os_system.
  cbn [pending far calls effects].
  destruct (w_subordinate w (w_cwd w) (w_environ w)
              (command (Script.dunder_file w)) st) as [ch|];
    [| congruence].
  unfold finalize, Process.ret.
  cbn [pending far calls effects String.eqb app append].
  rewrite Hheld.
  cbn [String.eqb effects_of exit_of exit_status writes spawns printed
       spawned].
  rewrite writes_app, spawns_app, writes_map_ChildWrote,
    spawns_map_ChildWrote.
  repeat split.
Qed.

End PlainRun.

(** ** The instances on concrete inputs *)

Section InstanceExamples.
Import Launch Process Script Instances.

Example abspath_relative :
  abspath "/srv" "app/scripts/gen-api.py" = "/srv/app/scripts/gen-api.py".
Proof. reflexivity. Qed.

Example abspath_from_root :
  abspath "/" "srv/app/scripts/gen-api.py"
  = "//srv/app/scripts/gen-api.py".
Proof. reflexivity. Qed.

Example abspath_keeps_dots :
  abspath "/srv/app/scripts" "sub/../gen-api.py"
  = "/srv/app/scripts/sub/../gen-api.py".
Proof. reflexivity. Qed.

Example abspath_absolute :
  abspath "/var" "/srv/app/scripts/gen-api.py"
  = "/srv/app/scripts/gen-api.py".
Proof. reflexivity. Qed.

Example location_goes_up :
  location "/srv/app/scripts/sub/../gen-api.py"
  = ["srv"; "app"; "scripts"; "gen-api.py"].
Proof. reflexivity. Qed.

Example pythonunbuffered_values :
  map (fun v => pythonunbuffered [("PYTHONUNBUFFERED", v)])
      [""; "0"; "00"; "+0"; "-0"; " 0"; "0 "; "1"; "x"; "-1"; "+"; " ";
       "0x0"]
  = [false; false; false; false; false; false; true; true; true; true;
     true; true; true].
Proof. reflexivity. Qed.

Example wait_status_values :
  map wait_status [Exit 0; Exit 1; Exit 127; Exit 256; Signal 2 false;
                   Signal 11 true]
  = [0; 256; 32512; 0; 2; 139]%Z.
Proof. reflexivity. Qed.

(** On /dev/full: the shell runs, the flush at the exit is refused, the
    status is 120. *)
Example run_on_dev_full :
  run (started takes_none 0 (silent (Exit 0)))
  = mkOutcome (Returned tt)
      [CallPrint (command "/srv/app/scripts/gen-api.py");
       CallSystem (command "/srv/app/scripts/gen-api.py")]
      [Spawned (command "/srv/app/scripts/gen-api.py");
       Reaped 0;
       Refused (command "/srv/app/scripts/gen-api.py" ++ newline);
       Complained OSError]
      120.
Proof. vm_compute. reflexivity. Qed.

(** Unbuffered on a pipe with a reader: the text and the newline are
    written before the shell starts. *)
Example run_unbuffered :
  effects_of
    (run (with_environ (started takes_all 0 (silent (Exit 3)))
                       [("PYTHONUNBUFFERED", "1")]))
  = [Wrote (command "/srv/app/scripts/gen-api.py");
     Wrote newline;
     Spawned (command "/srv/app/scripts/gen-api.py");
     Reaped 768].
Proof. vm_compute. reflexivity. Qed.

End InstanceExamples.

(** ** The run on a standard output that takes everything *)

Section TakenOutput.
Import Process Script Instances.

Lemma write_chunks_taken (accept : nat -> string -> option nat)
    (chunks : list string) :
  (forall (st : nat) (text : string), accept st text <> None) ->
  forall (st : nat) (eff : list effect),
  exists st' : nat,
    write_chunks accept chunks st eff = (None, st', eff ++ map Wrote chunks).
Proof.
  intros Hacc. induction chunks as [|c chunks IH]; intros st eff; simpl.
  - exists st. now rewrite app_nil_r.
  - destruct (accept st c) as [st1|] eqn:E; [| now apply Hacc in E].
    destruct (IH st1 (eff ++ [Wrote c])) as [st' ->].
    exists st'. now rewrite <- app_assoc.
Qed.

(** X10. When the far end of standard output refuses no write and the
    encoder takes the command line, the run goes through however the
    subordinate ends: [print] and [os.system] are each called once with
    the command, nothing fails, the status is 0, and the script has
    written what the stream handed over at the call and then, at the
    exit, what it held. *)
Theorem run_succeeds_when_output_is_taken (w : World) :
  (forall (st : nat) (text : string), w_accept w st text <> None) ->
  w_stream w (w_environ w) (command (dunder_file w)) <> None ->
  result_of (run w) = Returned tt
  /\ exit_of (run w) = 0%Z
  /\ calls_of (run w)
     = [CallPrint (command (dunder_file w));
        CallSystem (command (dunder_file w))]
  /\ existsb is_failure (effects_of (run w)) = false
  /\ exists p : plan,
       w_stream w (w_environ w) (command (dunder_file w)) = Some p
       /\ writes (effects_of (run w))
          = now p ++ (if String.eqb (held p) "" then [] else [held p]).
Proof.
  intros Hacc Hstream.
  destruct (run_cases w)
    as [[Es _] | [(p & pre & c & fl & code & Es & E & Hfl)
                 | (p & ch & fl & code & Es & E & Hfl)]];
    [contradiction | |].
  - exfalso. revert E.
    unfold run, main, Process.bind, __file__, Process.print, start.
    simpl. rewrite Es.
    destruct (write_chunks_taken (w_accept w)
                (match now p with
                 | [] => []
                 | _ :: _ => []
                 end ++ now p) Hacc (w_far w) []) as [st' ->].
    simpl. unfold os_system. simpl.
    destruct (w_subordinate w (w_cwd w) (w_environ w)
                (command (dunder_file w)) st');
      unfold finalize; simpl;
      match goal with
      | |- context [String.eqb ?x ""] => destruct (String.eqb x "")
      end;
      try discriminate;
      match goal with
      | |- context [w_accept w ?a ?x] => destruct (w_accept w a x)
      end; discriminate.
  - rewrite E. simpl.
    rewrite existsb_app, failures_map_Wrote, existsb_app,
      failures_shell_effects, !writes_app, writes_map_Wrote,
      writes_shell_effects.
    simpl.
    destruct Hfl as [(Eh & -> & ->) | [(Eh & -> & ->) | (Eh & -> & ->)]].
    + repeat split. exists p. split; [exact Es |].
      now rewrite Eh.
    + repeat split. exists p. split; [exact Es |].
      now destruct (String.eqb_spec (held p) "").
    + exfalso. revert E.
      unfold run, main, Process.bind, __file__, Process.print, start.
      simpl. rewrite Es.
      destruct (write_chunks_taken (w_accept w)
                  (match now p with
                   | [] => []
                   | _ :: _ => []
                   end ++ now p) Hacc (w_far w) []) as [st' ->].
      simpl. unfold os_system. simpl.
      destruct (w_subordinate w (w_cwd w) (w_environ w)
                  (command (dunder_file w)) st');
        unfold finalize; simpl;
        match goal with
        | |- context [String.eqb ?x ""] => destruct (String.eqb x "")
        end;
        try discriminate;
        match goal with
        | |- context [w_accept w ?a ?x] =>
            destruct (w_accept w a x) eqn:Ea
        end;
        try discriminate; now apply Hacc in Ea.
Qed.

Lemma run_succeeds_when_output_is_taken_witness :
  exit_of (run (with_environ (started takes_all 0 (silent (Exit 3)))
                             [("PYTHONUNBUFFERED", "1")]))
  = 0%Z.
Proof.
  apply (run_succeeds_when_output_is_taken
           (with_environ (started takes_all 0 (silent (Exit 3)))
                         [("PYTHONUNBUFFERED", "1")])).
  - intros st text. discriminate.
  - discriminate.
Defined.

End TakenOutput.
